(** Verification of the dev-kit MCP server: GitLab entry point
    ([src/index.ts]), GitHub tool handlers ([build/tools/github/index.js]) and
    the command-line script tool ([build/tools/script]).

    The TypeScript/JavaScript sources are embedded as Rocq functions.  Remote
    collaborators (the GitLab REST API reached through axios, octokit, the
    child process spawned by [exec]) are stubs supplied as parameters, and
    every call made to them is recorded in an explicit log, so that "which
    calls were made, in which order" is a statement about the log. *)

From Stdlib Require Import Bool Ascii String List ZArith NArith QArith Lia DecimalString.
Import ListNotations.
Local Open Scope string_scope.
Set Warnings "-register-all".

(** * JavaScript string primitives used by the sources *)

Module Js.

(** [s.endsWith(suffix)] *)
Fixpoint endsWith (s suffix : string) : bool :=
  if String.eqb s suffix then true
  else match s with
       | EmptyString => false
       | String _ rest => endsWith rest suffix
       end.

(** [s.slice(0, -1)]: the string without its last character. *)
Fixpoint slice_0_m1 (s : string) : string :=
  match s with
  | EmptyString => EmptyString
  | String c rest =>
      match rest with
      | EmptyString => EmptyString
      | String _ _ => String c (slice_0_m1 rest)
      end
  end.

(** [s.startsWith(head)] *)
Fixpoint startsWith (s head : string) {struct head} : bool :=
  match head with
  | EmptyString => true
  | String a head' =>
      match s with
      | EmptyString => false
      | String b s' => Ascii.eqb a b && startsWith s' head'
      end
  end.

(** [s.includes(sub)] *)
Fixpoint includes (s sub : string) : bool :=
  if startsWith s sub then true
  else match s with
       | EmptyString => false
       | String _ rest => includes rest sub
       end.

(** The last character of a string, if any. *)
Fixpoint last_char (s : string) : option ascii :=
  match s with
  | EmptyString => None
  | String c rest => match rest with EmptyString => Some c | _ => last_char rest end
  end.

(** Truthiness of a string value: every string but the empty one. *)
Definition truthy (s : string) : bool := negb (String.eqb s "").

(** Truthiness of a value that is a string or [undefined]. *)
Definition truthy_opt (s : option string) : bool :=
  match s with
  | Some v => truthy v
  | None => false
  end.

(** [arr.join(sep)] on an array of strings. *)
Definition join (sep : string) (parts : list string) : string :=
  String.concat sep parts.

(** Decimal rendering of an integer inside a template literal. *)
Definition string_of_Z (z : Z) : string := NilZero.string_of_int (Z.to_int z).

(** [arr.includes(x)] on an array of strings. *)
Definition array_includes (arr : list string) (x : string) : bool :=
  existsb (String.eqb x) arr.

(** JSON values: request arguments and response bodies. *)
Inductive Json : Type :=
| JNull
| JBool (b : bool)
| JNumber (q : Q)
| JString (s : string)
| JArray (items : list Json)
| JObject (fields : list (string * Json)).

(** ** Asynchronous code

    An [async] function is run against a log of the calls it has made to its
    collaborator so far (type [Event]); it extends the log and either
    returns a value or throws (type [Err]).  [await] is sequencing. *)

Inductive Outcome (Err A : Type) : Type :=
| Returned (value : A)
| Thrown (error : Err).
Arguments Returned {Err A} value.
Arguments Thrown {Err A} error.

Definition Async (Event Err A : Type) : Type :=
  list Event -> Outcome Err A * list Event.

Definition ret {Event Err A} (a : A) : Async Event Err A :=
  fun log => (Returned a, log).

Definition throw {Event Err A} (e : Err) : Async Event Err A :=
  fun log => (Thrown e, log).

Definition bind {Event Err A B} (c : Async Event Err A) (k : A -> Async Event Err B)
  : Async Event Err B :=
  fun log =>
    match c log with
    | (Returned a, log') => k a log'
    | (Thrown e, log') => (Thrown e, log')
    end.

(** [try { body } catch (error) { handler }] *)
Definition try_catch {Event Err A} (body : Async Event Err A)
  (handler : Err -> Async Event Err A) : Async Event Err A :=
  fun log =>
    match body log with
    | (Returned a, log') => (Returned a, log')
    | (Thrown e, log') => handler e log'
    end.

Notation "x <- c1 ;; c2" := (bind c1 (fun x => c2))
  (at level 61, c1 at next level, right associativity).
Notation "c1 ;;; c2" := (bind c1 (fun _ => c2))
  (at level 61, right associativity).

End Js.

(** * The GitLab server, [src/index.ts] *)

Module GitLab.
Import Js.

(** The zod schemas imported from [./gitlab/schema.js], by name. *)
Inductive Schema : Type :=
| CreateOrUpdateFileSchema
| SearchRepositoriesSchema
| CreateRepositorySchema
| GetFileContentsSchema
| PushFilesSchema
| CreateIssueSchema
| CreateMergeRequestSchema
| ForkRepositorySchema
| CreateBranchSchema
| GetMergeRequestSchema
| GetMergeRequestDiffsSchema
| UpdateMergeRequestSchema
| CreateNoteSchema
| ListMergeRequestDiscussionsSchema
| UpdateMergeRequestNoteSchema
| ListIssuesSchema
| GetIssueSchema
| UpdateIssueSchema
| DeleteIssueSchema
| ListIssueLinksSchema
| GetIssueLinkSchema
| CreateIssueLinkSchema
| DeleteIssueLinkSchema
| ListNamespacesSchema
| GetNamespaceSchema
| VerifyNamespaceSchema
| GetProjectSchema
| ListProjectsSchema
| ListLabelsSchema
| GetLabelSchema
| CreateLabelSchema
| UpdateLabelSchema
| DeleteLabelSchema
| ListGroupProjectsSchema
| ListOpenMergeRequestsSchema
| GitLabMergeRequestSchema
| GetMergeRequestCommentsSchema
| AddMergeRequestDiffCommentSchema
| GitLabContentSchema
| GitLabRepositorySchema
| GitLabCreateUpdateFileResponseSchema.

(** An entry of [allTools]; [inputSchema] is [zodToJsonSchema] of the named
    schema and is kept as that name. *)
Record ToolDescriptor : Type := mkTool {
  name : string;
  description : string;
  inputSchema : Schema
}.

Definition allTools : list ToolDescriptor :=
  [ mkTool "create_or_update_file"
      "Create or update a file in a GitLab repository"
      CreateOrUpdateFileSchema;
    mkTool "search_repositories"
      "Search for GitLab projects"
      SearchRepositoriesSchema;
    mkTool "create_repository"
      "Create a new GitLab project"
      CreateRepositorySchema;
    mkTool "get_file_contents"
      "Get the contents of a file or directory from a GitLab project"
      GetFileContentsSchema;
    mkTool "push_files"
      "Push multiple files to a GitLab project in a single commit"
      PushFilesSchema;
    mkTool "create_issue"
      "Create a new issue in a GitLab project"
      CreateIssueSchema;
    mkTool "create_merge_request"
      "Create a new merge request in a GitLab project"
      CreateMergeRequestSchema;
    mkTool "fork_repository"
      "Fork a GitLab project to your account or specified namespace"
      ForkRepositorySchema;
    mkTool "create_branch"
      "Create a new branch in a GitLab project"
      CreateBranchSchema;
    mkTool "get_merge_request"
      "Get details of a merge request"
      GetMergeRequestSchema;
    mkTool "get_merge_request_diffs"
      "Get the changes/diffs of a merge request"
      GetMergeRequestDiffsSchema;
    mkTool "update_merge_request"
      "Update a merge request"
      UpdateMergeRequestSchema;
    mkTool "create_note"
      "Create a new note (comment) to an issue or merge request"
      CreateNoteSchema;
    mkTool "list_merge_request_discussions"
      "List discussion items for a merge request"
      ListMergeRequestDiscussionsSchema;
    mkTool "update_merge_request_note"
      "Modify an existing merge request thread note"
      UpdateMergeRequestNoteSchema;
    mkTool "list_issues"
      "List issues in a GitLab project with filtering options"
      ListIssuesSchema;
    mkTool "get_issue"
      "Get details of a specific issue in a GitLab project"
      GetIssueSchema;
    mkTool "update_issue"
      "Update an issue in a GitLab project"
      UpdateIssueSchema;
    mkTool "delete_issue"
      "Delete an issue from a GitLab project"
      DeleteIssueSchema;
    mkTool "list_issue_links"
      "List all issue links for a specific issue"
      ListIssueLinksSchema;
    mkTool "get_issue_link"
      "Get a specific issue link"
      GetIssueLinkSchema;
    mkTool "create_issue_link"
      "Create an issue link between two issues"
      CreateIssueLinkSchema;
    mkTool "delete_issue_link"
      "Delete an issue link"
      DeleteIssueLinkSchema;
    mkTool "list_namespaces"
      "List all namespaces available to the current user"
      ListNamespacesSchema;
    mkTool "get_namespace"
      "Get details of a namespace by ID or path"
      GetNamespaceSchema;
    mkTool "verify_namespace"
      "Verify if a namespace path exists"
      VerifyNamespaceSchema;
    mkTool "get_project"
      "Get details of a specific project"
      GetProjectSchema;
    mkTool "list_projects"
      "Get a list of projects with id, name, description, web_url and other useful information"
      ListProjectsSchema;
    mkTool "list_labels"
      "List labels for a project"
      ListLabelsSchema;
    mkTool "get_label"
      "Get a single label from a project"
      GetLabelSchema;
    mkTool "create_label"
      "Create a new label in a project"
      CreateLabelSchema;
    mkTool "update_label"
      "Update an existing label in a project"
      UpdateLabelSchema;
    mkTool "delete_label"
      "Delete a label from a project"
      DeleteLabelSchema;
    mkTool "list_group_projects"
      "List projects in a GitLab group with filtering options"
      ListGroupProjectsSchema;
    mkTool "list_open_merge_requests"
      "Lists all open merge requests in the project"
      ListOpenMergeRequestsSchema;
    mkTool "get_merge_request_details"
      "Get details about a specific merge request of a project like title, description, author, assignee, state, and more"
      GitLabMergeRequestSchema;
    mkTool "get_merge_request_comments"
      "Get general and file diff comments of a certain merge request"
      GetMergeRequestCommentsSchema;
    mkTool "add_merge_request_diff_comment"
      "Add a comment of a merge request at a specific line in a file diff"
      AddMergeRequestDiffCommentSchema ].

Definition readOnlyTools : list string :=
  [ "search_repositories";
    "get_file_contents";
    "get_merge_request";
    "get_merge_request_diffs";
    "list_merge_request_discussions";
    "list_issues";
    "get_issue";
    "list_issue_links";
    "get_issue_link";
    "list_namespaces";
    "get_namespace";
    "verify_namespace";
    "get_project";
    "list_projects";
    "list_labels";
    "get_label";
    "list_group_projects" ].

(** [normalizeGitLabApiUrl(url?: string)] *)
Definition normalizeGitLabApiUrl (url : option string) : string :=
  if negb (Js.truthy_opt url) then "https://gitlab.com/api/v4"
  else
    let url := match url with Some u => u | None => "" end in
    let normalizedUrl := if Js.endsWith url "/" then Js.slice_0_m1 url else url in
    if negb (Js.endsWith normalizedUrl "/api/v4")
       && negb (Js.endsWith normalizedUrl "/api/v4/")
    then normalizedUrl ++ "/api/v4"
    else normalizedUrl.

(** The module-level constants read from the environment at start-up:
    [normalizeGitLabApiUrl(process.env.GITLAB_API_URL || '')] and
    [process.env.GITLAB_READ_ONLY_MODE === 'true']. *)
Record Config : Type := mkConfig {
  GITLAB_API_URL : string;
  GITLAB_READ_ONLY_MODE : bool
}.

Definition load_config (env_GITLAB_API_URL env_GITLAB_READ_ONLY_MODE : option string)
  : Config :=
  {| GITLAB_API_URL :=
       normalizeGitLabApiUrl
         (Some (if Js.truthy_opt env_GITLAB_API_URL
                then match env_GITLAB_API_URL with Some u => u | None => "" end
                else ""));
     GITLAB_READ_ONLY_MODE :=
       match env_GITLAB_READ_ONLY_MODE with
       | Some v => String.eqb v "true"
       | None => false
       end |}.

(** The [ListToolsRequestSchema] handler. *)
Definition ListTools (cfg : Config) : list ToolDescriptor :=
  if GITLAB_READ_ONLY_MODE cfg
  then filter (fun tool => Js.array_includes readOnlyTools (name tool)) allTools
  else allTools.

(** ** Values exchanged with the remote *)

(** A zod issue: [path] is an array of object keys and array indices. *)
Inductive PathSegment : Type :=
| Key (k : string)
| Index (i : N).

Record ZodIssue : Type := mkIssue {
  issue_path : list PathSegment;
  issue_message : string
}.

Inductive ZodResult (A : Type) : Type :=
| ZodOk (value : A)
| ZodFail (issues : list ZodIssue).
Arguments ZodOk {A} value.
Arguments ZodFail {A} issues.

Record AxiosResponse : Type := mkResponse {
  status : Z;
  statusText : string;
  data : Json
}.

(** What can be thrown: a plain [Error], a [z.ZodError] or an axios error
    (with [error.response] when the remote answered). *)
Inductive ErrorClass : Type :=
| PlainError
| ZodError (issues : list ZodIssue)
| AxiosError (response : option AxiosResponse).

Record JsError : Type := mkError {
  err_class : ErrorClass;
  err_message : string
}.

Definition Error (message : string) : JsError := mkError PlainError message.

(** ** Requests *)

Inductive Method : Type := GET | POST | PUT.

(** The two REST resources reached by the functions embedded below,
    relative to [GITLAB_API_URL]:
    [/projects/:id] and [/projects/:id/repository/files/:file_path]. *)
Inductive Endpoint : Type :=
| Project (projectId : string)
| RepositoryFile (projectId filePath : string).

(** The [body] object of [createOrUpdateFile]; an optional key is [None]
    when the object has no such key. *)
Record FileBody : Type := mkBody {
  body_branch : string;
  body_content : string;
  body_commit_message : string;
  body_encoding : string;
  body_previous_path : option string;
  body_commit_id : option string;
  body_last_commit_id : option string
}.

(** One axios call.  The URL is kept in its components (base, resource,
    search parameters) instead of the text that [new URL],
    [encodeURIComponent] and [searchParams.append] assemble, [GITLAB_API_URL]
    being an absolute URL, on which [new URL] succeeds; the headers are the
    constant [DEFAULT_HEADERS] on every call. *)
Record Request : Type := mkRequest {
  req_method : Method;
  req_base : string;
  req_endpoint : Endpoint;
  req_search : list (string * string);
  req_data : option FileBody
}.

(** The remote's answer to one call: an HTTP response, or none at all
    (network failure; the text is the axios error's message). *)
Inductive Reply : Type :=
| HttpReply (response : AxiosResponse)
| NoReply (message : string).

(** ** Asynchronous code of this module: it logs axios calls and throws
    [JsError]s *)

Definition Log : Type := list Request.

Definition Async (A : Type) : Type := Js.Async Request JsError A.

(** ** The cases of the [CallToolRequestSchema] switch *)

Inductive ToolCase : Type :=
| fork_repository
| add_merge_request_diff_comment
| create_branch
| search_repositories
| create_repository
| get_file_contents
| create_or_update_file
| push_files
| create_issue
| create_merge_request
| update_merge_request_note
| get_merge_request
| get_merge_request_diffs
| update_merge_request
| list_merge_request_discussions
| list_namespaces
| get_namespace
| verify_namespace
| get_project
| list_projects
| create_note
| list_issues
| get_issue
| update_issue
| delete_issue
| list_issue_links
| get_issue_link
| create_issue_link
| delete_issue_link
| list_labels
| get_label
| create_label
| update_label
| delete_label
| list_group_projects
| list_open_merge_requests
| get_merge_request_details
| get_merge_request_comments.

(** The [case] labels; [None] is the [default] branch. *)
Definition case_of_name (n : string) : option ToolCase :=
  if String.eqb n "fork_repository" then Some fork_repository else
  if String.eqb n "add_merge_request_diff_comment" then Some add_merge_request_diff_comment else
  if String.eqb n "create_branch" then Some create_branch else
  if String.eqb n "search_repositories" then Some search_repositories else
  if String.eqb n "create_repository" then Some create_repository else
  if String.eqb n "get_file_contents" then Some get_file_contents else
  if String.eqb n "create_or_update_file" then Some create_or_update_file else
  if String.eqb n "push_files" then Some push_files else
  if String.eqb n "create_issue" then Some create_issue else
  if String.eqb n "create_merge_request" then Some create_merge_request else
  if String.eqb n "update_merge_request_note" then Some update_merge_request_note else
  if String.eqb n "get_merge_request" then Some get_merge_request else
  if String.eqb n "get_merge_request_diffs" then Some get_merge_request_diffs else
  if String.eqb n "update_merge_request" then Some update_merge_request else
  if String.eqb n "list_merge_request_discussions" then Some list_merge_request_discussions else
  if String.eqb n "list_namespaces" then Some list_namespaces else
  if String.eqb n "get_namespace" then Some get_namespace else
  if String.eqb n "verify_namespace" then Some verify_namespace else
  if String.eqb n "get_project" then Some get_project else
  if String.eqb n "list_projects" then Some list_projects else
  if String.eqb n "create_note" then Some create_note else
  if String.eqb n "list_issues" then Some list_issues else
  if String.eqb n "get_issue" then Some get_issue else
  if String.eqb n "update_issue" then Some update_issue else
  if String.eqb n "delete_issue" then Some delete_issue else
  if String.eqb n "list_issue_links" then Some list_issue_links else
  if String.eqb n "get_issue_link" then Some get_issue_link else
  if String.eqb n "create_issue_link" then Some create_issue_link else
  if String.eqb n "delete_issue_link" then Some delete_issue_link else
  if String.eqb n "list_labels" then Some list_labels else
  if String.eqb n "get_label" then Some get_label else
  if String.eqb n "create_label" then Some create_label else
  if String.eqb n "update_label" then Some update_label else
  if String.eqb n "delete_label" then Some delete_label else
  if String.eqb n "list_group_projects" then Some list_group_projects else
  if String.eqb n "list_open_merge_requests" then Some list_open_merge_requests else
  if String.eqb n "get_merge_request_details" then Some get_merge_request_details else
  if String.eqb n "get_merge_request_comments" then Some get_merge_request_comments else
  None.

(** The schema each case parses [request.params.arguments] with. *)
Definition case_schema (t : ToolCase) : Schema :=
  match t with
  | fork_repository => ForkRepositorySchema
  | add_merge_request_diff_comment => AddMergeRequestDiffCommentSchema
  | create_branch => CreateBranchSchema
  | search_repositories => SearchRepositoriesSchema
  | create_repository => CreateRepositorySchema
  | get_file_contents => GetFileContentsSchema
  | create_or_update_file => CreateOrUpdateFileSchema
  | push_files => PushFilesSchema
  | create_issue => CreateIssueSchema
  | create_merge_request => CreateMergeRequestSchema
  | update_merge_request_note => UpdateMergeRequestNoteSchema
  | get_merge_request => GetMergeRequestSchema
  | get_merge_request_diffs => GetMergeRequestDiffsSchema
  | update_merge_request => UpdateMergeRequestSchema
  | list_merge_request_discussions => ListMergeRequestDiscussionsSchema
  | list_namespaces => ListNamespacesSchema
  | get_namespace => GetNamespaceSchema
  | verify_namespace => VerifyNamespaceSchema
  | get_project => GetProjectSchema
  | list_projects => ListProjectsSchema
  | create_note => CreateNoteSchema
  | list_issues => ListIssuesSchema
  | get_issue => GetIssueSchema
  | update_issue => UpdateIssueSchema
  | delete_issue => DeleteIssueSchema
  | list_issue_links => ListIssueLinksSchema
  | get_issue_link => GetIssueLinkSchema
  | create_issue_link => CreateIssueLinkSchema
  | delete_issue_link => DeleteIssueLinkSchema
  | list_labels => ListLabelsSchema
  | get_label => GetLabelSchema
  | create_label => CreateLabelSchema
  | update_label => UpdateLabelSchema
  | delete_label => DeleteLabelSchema
  | list_group_projects => ListGroupProjectsSchema
  | list_open_merge_requests => ListOpenMergeRequestsSchema
  | get_merge_request_details => GetMergeRequestSchema
  | get_merge_request_comments => GetMergeRequestCommentsSchema
  end.

(** ** Parsed values: [z.infer] of the schemas

    [./gitlab/schema.js] is not among the sources.  The records below hold
    the fields that [src/index.ts] reads or writes on a parsed value; values
    whose shape the code never looks into stay [Json]. *)

Record CreateOrUpdateFileArgs : Type := mkCreateOrUpdateFileArgs {
  cuf_project_id : string;
  cuf_file_path : string;
  cuf_content : string;
  cuf_commit_message : string;
  cuf_branch : string;
  cuf_previous_path : option string;
  cuf_last_commit_id : option string;
  cuf_commit_id : option string
}.

Record GetFileContentsArgs : Type := mkGetFileContentsArgs {
  gfc_project_id : string;
  gfc_file_path : string;
  gfc_ref : option string
}.

Record GitLabFileContent : Type := mkFileContent {
  content : option string;
  encoding : string;
  commit_id : option string;
  last_commit_id : option string;
  file_rest : Json
}.

(** [GitLabContentSchema] yields an object (a file) or an array (the
    entries of a directory): the code tells them apart with
    [Array.isArray]. *)
Inductive GitLabContent : Type :=
| FileContent (file : GitLabFileContent)
| DirectoryContent (entries : list Json).

Record GitLabRepository : Type := mkRepository {
  default_branch : option string;
  repository_rest : Json
}.

Definition z_infer (s : Schema) : Type :=
  match s with
  | CreateOrUpdateFileSchema => CreateOrUpdateFileArgs
  | GetFileContentsSchema => GetFileContentsArgs
  | GitLabContentSchema => GitLabContent
  | GitLabRepositorySchema => GitLabRepository
  | _ => Json
  end.

(** [request.params] of a tool call.  The protocol layer has validated the
    frame: [arguments] is an object or absent. *)
Record CallToolRequest : Type := mkCall {
  params_name : string;
  params_arguments : option (list (string * Json))
}.

(** [{ content: [{ type: 'text', text }] }] *)
Inductive CallToolResult : Type :=
| TextContent (text : string).

(** ** What the server is linked against

    The schemas of the absent [./gitlab/schema.js], the library functions
    whose text output is not modelled, the remote GitLab instance (a stub
    that sees the calls already made), and the bodies of the switch cases
    that are not embedded below (they receive the parsed arguments and read
    [GITLAB_API_URL], the only module constant a handler reads). *)
Class Env : Type := mkEnv {
  parse : forall s : Schema, Json -> ZodResult (z_infer s);
  ZodError_message : list ZodIssue -> string;
  JSON_stringify : Json -> string;
  JSON_stringify_2 : forall s : Schema, z_infer s -> string;
  base64_to_utf8 : string -> string;
  remote : Log -> Request -> Reply;
  case_body : forall t : ToolCase, string -> z_infer (case_schema t) -> Async CallToolResult
}.

Definition newline : string := String (ascii_of_nat 10) EmptyString.

(** [Schema.parse(value)]: returns the parsed value or throws a ZodError. *)
Definition zod_parse `{Env} (s : Schema) (value : Json) : Async (z_infer s) :=
  match parse s value with
  | ZodOk v => ret v
  | ZodFail issues => throw (mkError (ZodError issues) (ZodError_message issues))
  end.

(** An axios call: logged, then resolved with the response when its status
    is 2xx (axios's default [validateStatus]) and rejected otherwise. *)
Definition axios `{Env} (request : Request) : Async AxiosResponse :=
  fun log =>
    match remote log request with
    | HttpReply r =>
        if (200 <=? status r)%Z && (status r <? 300)%Z
        then (Returned r, (log ++ [request])%list)
        else (Thrown (mkError (AxiosError (Some r))
                        ("Request failed with status code " ++ Js.string_of_Z (status r))),
              (log ++ [request])%list)
    | NoReply message => (Thrown (mkError (AxiosError None) message), (log ++ [request])%list)
    end.

(** [typeof response.data === 'string' ? response.data
                                        : JSON.stringify(response.data)] *)
Definition errorBody_of `{Env} (response : AxiosResponse) : string :=
  match data response with
  | JString s => s
  | other => JSON_stringify other
  end.

(** [handleGitLabError(response)]; what it writes to the console is left
    out. *)
Definition handleGitLabError `{Env} (response : AxiosResponse) : Async unit :=
  if (status response <? 200)%Z || (status response >=? 300)%Z then
    let errorBody := errorBody_of response in
    if (status response =? 403)%Z
       && Js.includes errorBody "User API Key Rate limit exceeded"
    then throw (Error ("GitLab API Rate Limit Exceeded: " ++ errorBody))
    else throw (Error ("GitLab API error: " ++ Js.string_of_Z (status response)
                       ++ " " ++ statusText response ++ newline ++ errorBody))
  else ret tt.

(** Both errors are plain [Error]s; a caller tells them apart by the head
    of the message. *)
Definition is_rate_limit_error (e : JsError) : bool :=
  Js.startsWith (err_message e) "GitLab API Rate Limit Exceeded: ".

(** The recurring handler
    [if (axios.isAxiosError(error) && error.response)
       await handleGitLabError(error.response); throw error]. *)
Definition rethrow_as_gitlab_error `{Env} {A} (error : JsError) : Async A :=
  match err_class error with
  | AxiosError (Some response) => handleGitLabError response ;;; throw error
  | _ => throw error
  end.

(** [getDefaultBranchRef(projectId)] *)
Definition getDefaultBranchRef `{Env} (api_url projectId : string) : Async string :=
  try_catch
    (response <- axios (mkRequest GET api_url (Project projectId) [] None) ;;
     project <- zod_parse GitLabRepositorySchema (data response) ;;
     ret (match default_branch project with
          | Some branch => branch
          | None => "main"
          end))
    rethrow_as_gitlab_error.

(** The call [axios.get(url, { headers })] of [getFileContents], [url]
    being the file's URL with [ref] appended to its search parameters. *)
Definition read_request (api_url projectId filePath ref : string) : Request :=
  mkRequest GET api_url (RepositoryFile projectId filePath) [("ref", ref)] None.

(** The call [axios({ method, url, headers, data: body })] of
    [createOrUpdateFile]. *)
Definition write_request (method : Method) (api_url projectId filePath : string)
  (body : FileBody) : Request :=
  mkRequest method api_url (RepositoryFile projectId filePath) [] (Some body).

(** [getFileContents(projectId, filePath, ref?)] *)
Definition getFileContents `{Env} (api_url projectId filePath : string)
  (ref : option string) : Async GitLabContent :=
  ref <- (match ref with
          | Some r => if Js.truthy r then ret r else getDefaultBranchRef api_url projectId
          | None => getDefaultBranchRef api_url projectId
          end) ;;
  try_catch
    (response <- axios (read_request api_url projectId filePath ref) ;;
     parsedData <- zod_parse GitLabContentSchema (data response) ;;
     ret (match parsedData with
          | FileContent f =>
              match content f with
              | Some c =>
                  if Js.truthy c
                  then FileContent (mkFileContent (Some (base64_to_utf8 c)) "utf8"
                                      (commit_id f) (last_commit_id f) (file_rest f))
                  else parsedData
              | None => parsedData
              end
          | DirectoryContent _ => parsedData
          end))
    (fun error =>
       match err_class error with
       | AxiosError response =>
           match response with
           | Some r =>
               if (status r =? 404)%Z
               then throw (Error ("File not found: " ++ filePath))
               else handleGitLabError r ;;; throw error
           | None => throw error
           end
       | _ => throw error
       end).

(** The value stored under a revision key of [body]:
    [if (!given && found) body.k = found; else if (given) body.k = given]. *)
Definition revision_marker (given found : option string) : option string :=
  if negb (Js.truthy_opt given) && Js.truthy_opt found then found
  else if Js.truthy_opt given then given
  else None.

Definition with_markers (body : FileBody) (c l : option string) : FileBody :=
  mkBody (body_branch body) (body_content body) (body_commit_message body)
    (body_encoding body) (body_previous_path body) c l.

(** The [body] object as first built, before any revision marker. *)
Definition initial_body (branch content commitMessage : string)
  (previousPath : option string) : FileBody :=
  mkBody branch content commitMessage "text"
    (if Js.truthy_opt previousPath then previousPath else None) None None.

(** The second [try] block of [createOrUpdateFile]: the write itself. *)
Definition send_file `{Env} (method : Method) (api_url projectId filePath : string)
  (body : FileBody) : Async Json :=
  try_catch
    (response <- axios (write_request method api_url projectId filePath body) ;;
     zod_parse GitLabCreateUpdateFileResponseSchema (data response))
    rethrow_as_gitlab_error.

(** [createOrUpdateFile(projectId, filePath, content, commitMessage, branch,
    previousPath?, last_commit_id?, commit_id?)] *)
Definition createOrUpdateFile `{Env} (api_url projectId filePath content
  commitMessage branch : string) (previousPath last_commit_id commit_id : option string)
  : Async Json :=
  let body := initial_body branch content commitMessage previousPath in
  decided <-
    try_catch
      (fileData <- getFileContents api_url projectId filePath (Some branch) ;;
       ret (PUT,
            match fileData with
            | FileContent f =>
                with_markers body
                  (revision_marker commit_id (GitLab.commit_id f))
                  (revision_marker last_commit_id (GitLab.last_commit_id f))
            | DirectoryContent _ => body
            end))
      (fun error =>
         if negb (Js.includes (err_message error) "File not found")
         then throw error
         else ret (POST,
                   with_markers body
                     (if Js.truthy_opt commit_id then commit_id else None)
                     (if Js.truthy_opt last_commit_id then last_commit_id else None))) ;;
  send_file (fst decided) api_url projectId filePath (snd decided).

(** ** The [CallToolRequestSchema] handler *)

Definition segment_to_string (p : PathSegment) : string :=
  match p with
  | Key k => k
  | Index i => Js.string_of_Z (Z.of_N i)
  end.

(** [`${e.path.join('.')}: ${e.message}`] *)
Definition format_issue (e : ZodIssue) : string :=
  Js.join "." (map segment_to_string (issue_path e)) ++ ": " ++ issue_message e.

(** The statements of a case after its [Schema.parse] line. *)
Definition run_case `{Env} (api_url : string) (t : ToolCase)
  : z_infer (case_schema t) -> Async CallToolResult :=
  match t as t0 return z_infer (case_schema t0) -> Async CallToolResult with
  | get_file_contents => fun args =>
      contents <- getFileContents api_url (gfc_project_id args) (gfc_file_path args)
                    (gfc_ref args) ;;
      ret (TextContent (JSON_stringify_2 GitLabContentSchema contents))
  | create_or_update_file => fun args =>
      result <- createOrUpdateFile api_url (cuf_project_id args) (cuf_file_path args)
                  (cuf_content args) (cuf_commit_message args) (cuf_branch args)
                  (cuf_previous_path args) (cuf_last_commit_id args) (cuf_commit_id args) ;;
      ret (TextContent (JSON_stringify_2 GitLabCreateUpdateFileResponseSchema result))
  | other => fun args => case_body other api_url args
  end.

(** The [catch] clause of the handler: a ZodError becomes an
    [Invalid arguments] error, anything else is thrown again. *)
Definition catch_clause {A} (error : JsError) : Async A :=
  match err_class error with
  | ZodError issues =>
      throw (Error ("Invalid arguments: " ++ Js.join ", " (map format_issue issues)))
  | _ => throw error
  end.

Definition CallTool `{Env} (cfg : Config) (request : CallToolRequest)
  : Async CallToolResult :=
  try_catch
    (match params_arguments request with
     | None => throw (Error "Arguments are required")
     | Some arguments =>
         match case_of_name (params_name request) with
         | Some t =>
             args <- zod_parse (case_schema t) (JObject arguments) ;;
             run_case (GITLAB_API_URL cfg) t args
         | None => throw (Error ("Unknown tool: " ++ params_name request))
         end
     end)
    catch_clause.

End GitLab.

(** * The GitHub tools, [build/tools/github/index.js] *)

Module GitHub.
Import Js.

(** The octokit methods the two handlers call, with their parameters. *)
Inductive OctokitCall : Type :=
| repos_getContent (owner repo path : string) (ref : option string)
| pulls_createReview (owner repo : string) (pull_number : Q) (event : string)
    (body : option string)
| pulls_update (owner repo : string) (pull_number : Q) (state : string)
| issues_createComment (owner repo : string) (issue_number : Q) (body : string).

(** [data] of a [repos.getContent] response: an array for a directory, an
    object otherwise ([content] is absent on objects that are not files). *)
Record ContentObject : Type := mkContentObject {
  obj_content : option string;
  obj_sha : Json;
  obj_size : Json;
  obj_name : Json;
  obj_path : Json;
  obj_html_url : Json
}.

Inductive ContentData : Type :=
| DirectoryListing (entries : list Json)
| SingleObject (object : ContentObject).

(** A promise returned by octokit: resolved with [{ data }], or rejected
    with an error of which the handlers read [message] only. *)
Inductive Promise (A : Type) : Type :=
| Resolved (data : A)
| Rejected (message : string).
Arguments Resolved {A} data.
Arguments Rejected {A} message.

Definition Log : Type := list OctokitCall.

(** The octokit client handed to [registerGitHubTools]: a stub that sees
    the calls already made. *)
Class Octokit : Type := mkOctokit {
  getContent : Log -> string -> string -> string -> option string -> Promise ContentData;
  createReview : Log -> string -> string -> Q -> string -> option string -> Promise Json;
  update : Log -> string -> string -> Q -> string -> Promise Json;
  createComment : Log -> string -> string -> Q -> string -> Promise Json;
  (** [Buffer.from(s, 'base64').toString('utf-8')] *)
  base64_to_utf8 : string -> string
}.

Definition Async (A : Type) : Type := Js.Async OctokitCall string A.

(** [await] of an octokit promise: the call is logged. *)
Definition await {A} (call : OctokitCall) (promise : Log -> Promise A) : Async A :=
  fun log =>
    match promise log with
    | Resolved data => (Returned data, (log ++ [call])%list)
    | Rejected message => (Thrown message, (log ++ [call])%list)
    end.

(** The message of the [TypeError] that [Buffer.from(undefined, 'base64')]
    throws. *)
Definition Buffer_from_undefined : string :=
  "The first argument must be of type string or an instance of Buffer, ArrayBuffer, or Array or an Array-like Object. Received undefined".

(** What the [github_get_file_content] handler returns. *)
Inductive FileContentResult : Type :=
| FileError (error : string)
| FileOk (content encoding : string) (sha size name path url : Json).

(** The handler of [github_get_file_content]. *)
Definition getFileContent_handler `{Octokit} (owner repo path : string)
  (ref : option string) : Async FileContentResult :=
  try_catch
    (data <- await (repos_getContent owner repo path ref)
               (fun log => getContent log owner repo path ref) ;;
     match data with
     | DirectoryListing _ => ret (FileError "Path points to a directory, not a file")
     | SingleObject o =>
         match obj_content o with
         | Some c =>
             ret (FileOk (base64_to_utf8 c) "utf-8" (obj_sha o) (obj_size o)
                    (obj_name o) (obj_path o) (obj_html_url o))
         | None => throw Buffer_from_undefined
         end
     end)
    (fun message => ret (FileError ("Failed to get file content: " ++ message))).

(** [z.enum(['approve', 'close'])] *)
Inductive Action : Type := approve | close.

(** What the [github_pr_action] handler returns. *)
Inductive PRActionResult : Type :=
| ActionReview (review : Json)
| ActionPullRequest (pullRequest : Json)
| ActionError (error : string).

(** The handler of [github_pr_action]. *)
Definition PRAction_handler `{Octokit} (owner repo : string) (prNumber : Q)
  (action : Action) (comment : option string) : Async PRActionResult :=
  try_catch
    (match action with
     | approve =>
         data <- await (pulls_createReview owner repo prNumber "APPROVE" comment)
                   (fun log => createReview log owner repo prNumber "APPROVE" comment) ;;
         ret (ActionReview data)
     | close =>
         data <- await (pulls_update owner repo prNumber "closed")
                   (fun log => update log owner repo prNumber "closed") ;;
         (match comment with
          | Some body =>
              if truthy body
              then await (issues_createComment owner repo prNumber body)
                     (fun log => createComment log owner repo prNumber body) ;;; ret tt
              else ret tt
          | None => ret tt
          end) ;;;
         ret (ActionPullRequest data)
     end)
    (fun message => ret (ActionError ("Failed to perform action: " ++ message))).

End GitHub.

(** * The script tool, [build/tools/script/index.js] *)

Module Script.
Import Js.

(** The script is a JavaScript string: a sequence of UTF-16 code units. *)
Definition CodeUnit : Type := N.
Definition JsString : Type := list CodeUnit.

Definition code_units (s : string) : JsString :=
  map N_of_ascii (list_ascii_of_string s).

(** ECMAScript WhiteSpace and LineTerminator: what [trim] strips and what
    [\s] matches. *)
Definition is_whitespace (c : CodeUnit) : bool :=
  existsb (N.eqb c)
    [9; 10; 11; 12; 13; 32; 160; 5760; 8232; 8233; 8239; 8287; 12288; 65279]%N
  || ((8192 <=? c) && (c <=? 8202))%N.

(** [\w] *)
Definition is_word_char (c : CodeUnit) : bool :=
  ((97 <=? c) && (c <=? 122) || (65 <=? c) && (c <=? 90)
   || (48 <=? c) && (c <=? 57) || (c =? 95))%N.

Fixpoint trimStart (s : JsString) : JsString :=
  match s with
  | [] => []
  | c :: rest => if is_whitespace c then trimStart rest else s
  end.

(** [s.trim()] *)
Definition trim (s : JsString) : JsString :=
  rev (trimStart (rev (trimStart s))).

(** ** The regular expressions of the deny-list

    All five carry the [i] flag and none the [u] flag.  Their literals are
    ASCII, and without [u] a code unit above 127 never folds to an ASCII
    one, so folding [a-z] to [A-Z] decides every comparison they make. *)

Definition canonicalize (c : CodeUnit) : CodeUnit :=
  if ((97 <=? c) && (c <=? 122))%N then (c - 32)%N else c.

(** One-character matchers; the ends of a [Range] are letters of one
    case, as in [[a-z]]. *)
Inductive Atom : Type :=
| Lit (c : CodeUnit)
| Range (lo hi : CodeUnit)
| OneOf (cs : list CodeUnit)
| Space.

Inductive Regex : Type :=
| Epsilon
| Boundary
| One (a : Atom)
| Many1 (a : Atom)
| Cat (r1 r2 : Regex)
| Or (r1 r2 : Regex)
| Maybe (r : Regex).

Definition atom_matches (a : Atom) (c : CodeUnit) : bool :=
  match a with
  | Lit l => (canonicalize c =? canonicalize l)%N
  | Range lo hi =>
      ((canonicalize lo <=? canonicalize c) && (canonicalize c <=? canonicalize hi))%N
  | OneOf cs => existsb (fun l => (canonicalize c =? canonicalize l)%N) cs
  | Space => is_whitespace c
  end.

Definition word_before (prev : option CodeUnit) : bool :=
  match prev with
  | Some c => is_word_char c
  | None => false
  end.

Definition word_after (s : JsString) : bool :=
  match s with
  | c :: _ => is_word_char c
  | [] => false
  end.

(** Every way to match [a*] at the head of [s]: the character before the
    position reached, and the rest of the input. *)
Fixpoint many (a : Atom) (prev : option CodeUnit) (s : JsString)
  : list (option CodeUnit * JsString) :=
  (prev, s) ::
  match s with
  | c :: rest => if atom_matches a c then many a (Some c) rest else []
  | [] => []
  end.

(** Every way to match [r] at the head of [s], [prev] being the character
    before [s]. *)
Fixpoint ends (r : Regex) (prev : option CodeUnit) (s : JsString)
  : list (option CodeUnit * JsString) :=
  match r with
  | Epsilon => [(prev, s)]
  | Boundary => if xorb (word_before prev) (word_after s) then [(prev, s)] else []
  | One a =>
      match s with
      | c :: rest => if atom_matches a c then [(Some c, rest)] else []
      | [] => []
      end
  | Many1 a =>
      match s with
      | c :: rest => if atom_matches a c then many a (Some c) rest else []
      | [] => []
      end
  | Cat r1 r2 => flat_map (fun m => ends r2 (fst m) (snd m)) (ends r1 prev s)
  | Or r1 r2 => ends r1 prev s ++ ends r2 prev s
  | Maybe r1 => ends r1 prev s ++ [(prev, s)]
  end.

Definition matches_here (r : Regex) (prev : option CodeUnit) (s : JsString) : bool :=
  match ends r prev s with
  | [] => false
  | _ :: _ => true
  end.

Fixpoint search (r : Regex) (prev : option CodeUnit) (s : JsString) : bool :=
  matches_here r prev s
  || match s with
     | c :: rest => search r (Some c) rest
     | [] => false
     end.

(** [pattern.test(script)] for a pattern without the [g] flag. *)
Definition test (pattern : Regex) (script : JsString) : bool :=
  search pattern None script.

(** The literal [w], character by character. *)
Fixpoint word (w : list ascii) : Regex :=
  match w with
  | [] => Epsilon
  | [c] => One (Lit (N_of_ascii c))
  | c :: rest => Cat (One (Lit (N_of_ascii c))) (word rest)
  end.

Definition lit (w : string) : Regex := word (list_ascii_of_string w).

Definition slash : CodeUnit := 47%N.
Definition tilde : CodeUnit := 126%N.

Definition dangerousCommands : list Regex :=
  [ (* /\brm\s+(-rf?|--recursive)\s+[\/~]/i *)
    Cat Boundary (Cat (lit "rm") (Cat (Many1 Space)
      (Cat (Or (Cat (lit "-r") (Maybe (lit "f"))) (lit "--recursive"))
        (Cat (Many1 Space) (One (OneOf [slash; tilde]))))));
    (* /\bformat\s+([a-z]:)?\//i *)
    Cat Boundary (Cat (lit "format") (Cat (Many1 Space)
      (Cat (Maybe (Cat (One (Range 97 122)%N) (lit ":"))) (One (Lit slash)))));
    (* /\bmkfs/i *)
    Cat Boundary (lit "mkfs");
    (* /\bdd\s+if=/i *)
    Cat Boundary (Cat (lit "dd") (Cat (Many1 Space) (lit "if=")));
    (* /\bwipe/i *)
    Cat Boundary (lit "wipe") ].

(** [Inky r]: every match of [r] takes in a character that is not white
    space. *)
Fixpoint Inky (r : Regex) : Prop :=
  match r with
  | One a | Many1 a => forall c, atom_matches a c = true -> is_whitespace c = false
  | Cat r1 r2 => Inky r1 \/ Inky r2
  | Or r1 r2 => Inky r1 /\ Inky r2
  | Epsilon | Boundary | Maybe _ => False
  end.

Definition blank (s : JsString) : Prop := Forall (fun c => is_whitespace c = true) s.

(** ** The subprocess *)

(** One [execAsync(script, { timeout, maxBuffer })] call. *)
Record ExecCall : Type := mkExec {
  exec_script : JsString;
  exec_timeout : Q;
  exec_maxBuffer : Z
}.

(** [error.code] of a rejected [exec]: the exit status, or the name of a
    system error. *)
Inductive Code : Type :=
| ExitStatus (n : Z)
| ErrorName (s : string).

(** The error a rejected [exec] promise carries. *)
Record ExecError : Type := mkExecError {
  message : string;
  code : option Code;
  signal : option string;
  err_stdout : option string;
  err_stderr : option string
}.

(** [exec] resolves with the output when the subprocess exits with status 0
    and rejects otherwise. *)
Inductive ExecReply : Type :=
| Resolved (stdout stderr : string)
| Rejected (error : ExecError).

Definition Log : Type := list ExecCall.

(** The system the handler runs on: a stub that sees the calls already
    made. *)
Class Shell : Type := mkShell {
  exec : Log -> ExecCall -> ExecReply
}.

Definition Async (A : Type) : Type := Js.Async ExecCall ExecError A.

Definition execAsync `{Shell} (call : ExecCall) : Async (string * string) :=
  fun log =>
    match exec log call with
    | Resolved out err => (Returned (out, err), (log ++ [call])%list)
    | Rejected error => (Thrown error, (log ++ [call])%list)
    end.

(** The object the handler returns; a key the object lacks is [None]. *)
Record ScriptResult : Type := mkResult {
  error : option string;
  stdout : option string;
  stderr : option string;
  exitCode : option Code
}.


(** The three early answers of the handler. *)
Definition empty_script_error : ScriptResult :=
  mkResult (Some "Script cannot be empty") None None None.

Definition invalid_timeout_error : ScriptResult :=
  mkResult (Some "Timeout must be between 1 and 300 seconds") None None None.

Definition dangerous_script_error : ScriptResult :=
  mkResult
    (Some "Script contains potentially dangerous commands that could cause data loss or system damage")
    (Some "") (Some "") (Some (ExitStatus (-1))).

(** [x || fallback] on a string that may be undefined. *)
Definition or_else (x : option string) (fallback : string) : string :=
  match x with
  | Some s => if truthy s then s else fallback
  | None => fallback
  end.

(** [error.code || -1] *)
Definition code_or_minus_one (c : option Code) : Code :=
  match c with
  | Some (ExitStatus n) => if (n =? 0)%Z then ExitStatus (-1) else ExitStatus n
  | Some (ErrorName s) => if truthy s then ErrorName s else ExitStatus (-1)
  | None => ExitStatus (-1)
  end.

(** The seconds of a time-out, in the text of a message. *)
Class Render : Type := mkRender {
  number_to_string : Q -> string
}.

(** The parameter [timeoutSeconds = 30]: the default stands in when the
    caller left the argument out ([None]). *)
Definition timeout_or_default (timeoutSeconds : option Q) : Q :=
  match timeoutSeconds with
  | Some t => t
  | None => 30%Q
  end.

(** [timeoutSeconds <= 0 || timeoutSeconds > 300] *)
Definition timeout_out_of_range (timeoutSeconds : Q) : bool :=
  Qle_bool timeoutSeconds 0 || negb (Qle_bool timeoutSeconds 300).

(** [!script || script.trim() === ''] *)
Definition script_is_empty (script : JsString) : bool :=
  match script with [] => true | _ :: _ => false end
  || match trim script with [] => true | _ :: _ => false end.

(** The handler of [execute_comand_line_script]; the line it writes to the
    console before [exec] is left out. *)
Definition handler `{Shell} `{Render} (script : JsString) (timeoutSeconds : option Q)
  : Async ScriptResult :=
  let timeoutSeconds := timeout_or_default timeoutSeconds in
  try_catch
    (if script_is_empty script
     then ret empty_script_error
     else if timeout_out_of_range timeoutSeconds
     then ret invalid_timeout_error
     else if existsb (fun pattern => test pattern script) dangerousCommands
     then ret dangerous_script_error
     else
       output <- execAsync (mkExec script (timeoutSeconds * 1000)%Q (1024 * 1024)%Z) ;;
       ret (mkResult None (Some (fst output)) (Some (snd output)) (Some (ExitStatus 0))))
    (fun error =>
       if match signal error with Some s => String.eqb s "SIGTERM" | None => false end
       then ret (mkResult
                   (Some ("Script execution timed out after "
                          ++ number_to_string timeoutSeconds ++ " seconds"))
                   (Some (or_else (err_stdout error) ""))
                   (Some (or_else (err_stderr error) ""))
                   (Some (ExitStatus (-1))))
       else ret (mkResult
                   (Some (or_else (Some (message error)) "Unknown execution error"))
                   (Some (or_else (err_stdout error) ""))
                   (Some (or_else (err_stderr error) ""))
                   (Some (code_or_minus_one (code error))))).

End Script.

(** * Stub collaborators for the worked examples *)

Module Scenario.
Import Js.

Fixpoint lookup (k : string) (fields : list (string * Json)) : option Json :=
  match fields with
  | [] => None
  | (k', v) :: rest => if String.eqb k k' then Some v else lookup k rest
  end.

Definition string_field (k : string) (fields : list (string * Json)) : option string :=
  match lookup k fields with
  | Some (JString s) => Some s
  | _ => None
  end.

(** One [Required] issue per missing key, as zod reports them. *)
Definition required (keys : list string) (fields : list (string * Json))
  : list GitLab.ZodIssue :=
  flat_map (fun k => match string_field k fields with
                     | Some _ => []
                     | None => [GitLab.mkIssue [GitLab.Key k] "Required"]
                     end) keys.

Definition parse_CreateOrUpdateFile (j : Json)
  : GitLab.ZodResult GitLab.CreateOrUpdateFileArgs :=
  match j with
  | JObject fields =>
      match string_field "project_id" fields, string_field "file_path" fields,
            string_field "content" fields, string_field "commit_message" fields,
            string_field "branch" fields with
      | Some p, Some f, Some c, Some m, Some b =>
          GitLab.ZodOk
            (GitLab.mkCreateOrUpdateFileArgs p f c m b
               (string_field "previous_path" fields)
               (string_field "last_commit_id" fields)
               (string_field "commit_id" fields))
      | _, _, _, _, _ =>
          GitLab.ZodFail
            (required ["project_id"; "file_path"; "content"; "commit_message"; "branch"]
               fields)
      end
  | _ => GitLab.ZodFail [GitLab.mkIssue [] "Expected object"]
  end.

Definition parse_GetFileContents (j : Json)
  : GitLab.ZodResult GitLab.GetFileContentsArgs :=
  match j with
  | JObject fields =>
      match string_field "project_id" fields, string_field "file_path" fields with
      | Some p, Some f =>
          GitLab.ZodOk (GitLab.mkGetFileContentsArgs p f (string_field "ref" fields))
      | _, _ => GitLab.ZodFail (required ["project_id"; "file_path"] fields)
      end
  | _ => GitLab.ZodFail [GitLab.mkIssue [] "Expected object"]
  end.

Definition parse_GitLabContent (j : Json) : GitLab.ZodResult GitLab.GitLabContent :=
  match j with
  | JArray entries => GitLab.ZodOk (GitLab.DirectoryContent entries)
  | JObject fields =>
      GitLab.ZodOk
        (GitLab.FileContent
           (GitLab.mkFileContent (string_field "content" fields)
              (match string_field "encoding" fields with Some e => e | None => "" end)
              (string_field "commit_id" fields)
              (string_field "last_commit_id" fields)
              j))
  | _ => GitLab.ZodFail [GitLab.mkIssue [] "Invalid input"]
  end.

Definition parse_GitLabRepository (j : Json) : GitLab.ZodResult GitLab.GitLabRepository :=
  match j with
  | JObject fields =>
      GitLab.ZodOk (GitLab.mkRepository (string_field "default_branch" fields) j)
  | _ => GitLab.ZodFail [GitLab.mkIssue [] "Expected object"]
  end.

Definition stub_parse (s : GitLab.Schema) : Json -> GitLab.ZodResult (GitLab.z_infer s) :=
  match s as s0 return Json -> GitLab.ZodResult (GitLab.z_infer s0) with
  | GitLab.CreateOrUpdateFileSchema => parse_CreateOrUpdateFile
  | GitLab.GetFileContentsSchema => parse_GetFileContents
  | GitLab.GitLabContentSchema => parse_GitLabContent
  | GitLab.GitLabRepositorySchema => parse_GitLabRepository
  | _ => fun j => GitLab.ZodOk j
  end.

Definition stub_stringify (j : Json) : string :=
  match j with
  | JString s => s
  | JArray _ => "[...]"
  | JObject _ => "{...}"
  | _ => "..."
  end.

(** A call-counting handler for the cases that are not embedded: it leaves
    one entry in the log and answers [handled]. *)
Definition counting_body (t : GitLab.ToolCase) (api_url : string)
  (args : GitLab.z_infer (GitLab.case_schema t)) : GitLab.Async GitLab.CallToolResult :=
  fun log =>
    (Returned (GitLab.TextContent "handled"),
     (log ++ [GitLab.mkRequest GitLab.GET api_url (GitLab.Project "handler") [] None])%list).

(** The server linked against the stub schemas and a given remote. *)
Definition stub_env (remote : GitLab.Log -> GitLab.Request -> GitLab.Reply) : GitLab.Env :=
  GitLab.mkEnv stub_parse
    (fun issues => join "; " (map GitLab.format_issue issues))
    stub_stringify
    (fun _ _ => "(json)")
    (fun s => s)
    remote
    counting_body.

Definition api : string := "https://gitlab.com/api/v4".

Definition reply (status : Z) (statusText : string) (data : Json) : GitLab.Reply :=
  GitLab.HttpReply (GitLab.mkResponse status statusText data).

(** A remote that is broken: every read fails with a server error, whose
    body speaks of a file of the server's own that is missing.  Writes are
    accepted. *)
Definition server_error_body : string :=
  "Server misconfigured. File not found: /etc/gitlab/gitlab.rb".

Definition remote_broken_read : GitLab.Log -> GitLab.Request -> GitLab.Reply :=
  fun _ request =>
    match GitLab.req_method request with
    | GitLab.GET => reply 500 "Internal Server Error" (JString server_error_body)
    | _ => reply 201 "Created"
             (JObject [("file_path", JString "README.md"); ("branch", JString "main")])
    end.


(** A remote on which the file is absent (404 on read) or present. *)
Definition remote_absent : GitLab.Log -> GitLab.Request -> GitLab.Reply :=
  fun _ request =>
    match GitLab.req_method request with
    | GitLab.GET => reply 404 "Not Found" (JObject [("message", JString "404 File Not Found")])
    | _ => reply 201 "Created"
             (JObject [("file_path", JString "README.md"); ("branch", JString "main")])
    end.

Definition remote_present : GitLab.Log -> GitLab.Request -> GitLab.Reply :=
  fun _ request =>
    match GitLab.req_method request with
    | GitLab.GET =>
        reply 200 "OK"
          (JObject [("content", JString "aGVsbG8="); ("encoding", JString "base64");
                    ("commit_id", JString "c1"); ("last_commit_id", JString "c0")])
    | _ => reply 200 "OK"
             (JObject [("file_path", JString "README.md"); ("branch", JString "main")])
    end.

(** A remote that refuses everything for rate limiting. *)
Definition rate_limited : GitLab.AxiosResponse :=
  GitLab.mkResponse 403 "Forbidden" (JString "User API Key Rate limit exceeded").

Definition write_arguments : list (string * Json) :=
  [("project_id", JString "42"); ("file_path", JString "README.md");
   ("content", JString "hello"); ("commit_message", JString "update");
   ("branch", JString "main")].

(** ** GitHub *)

(** The pull request can be closed, but comments are refused. *)
Definition octokit_comment_fails : GitHub.Octokit :=
  GitHub.mkOctokit
    (fun _ _ _ _ _ => GitHub.Resolved (GitHub.DirectoryListing [JString "src"]))
    (fun _ _ _ _ _ _ => GitHub.Resolved (JObject [("state", JString "APPROVED")]))
    (fun _ _ _ _ _ => GitHub.Resolved (JObject [("state", JString "closed")]))
    (fun _ _ _ _ _ => GitHub.Rejected "Validation Failed")
    (fun s => s).

(** The pull request cannot even be closed. *)
Definition octokit_update_fails : GitHub.Octokit :=
  GitHub.mkOctokit
    (fun _ _ _ _ _ => GitHub.Resolved (GitHub.DirectoryListing [JString "src"]))
    (fun _ _ _ _ _ _ => GitHub.Resolved (JObject [("state", JString "APPROVED")]))
    (fun _ _ _ _ _ => GitHub.Rejected "Validation Failed")
    (fun _ _ _ _ _ => GitHub.Resolved JNull)
    (fun s => s).

(** ** Script *)


(** A system on which every command succeeds. *)
Definition shell_ok : Script.Shell :=
  Script.mkShell (fun _ call => Script.Resolved "done" "").

Definition render_seconds : Script.Render :=
  Script.mkRender (fun q => string_of_Z (Qnum q / Z.pos (Qden q))).

End Scenario.

(** * More of the GitLab server, [src/index.ts] *)

Module GitLabMore.
Import Js GitLab.

(** The [try] block of [getFileContents] and its [catch] clause: what runs
    once [ref] is known. *)
Definition fetch_file `{Env} (api_url projectId filePath ref : string)
  : Async GitLabContent :=
  try_catch
    (response <- axios (read_request api_url projectId filePath ref) ;;
     parsedData <- zod_parse GitLabContentSchema (data response) ;;
     ret (match parsedData with
          | FileContent f =>
              match content f with
              | Some c =>
                  if truthy c
                  then FileContent (mkFileContent (Some (base64_to_utf8 c)) "utf8"
                                      (commit_id f) (last_commit_id f) (file_rest f))
                  else parsedData
              | None => parsedData
              end
          | DirectoryContent _ => parsedData
          end))
    (fun error =>
       match err_class error with
       | AxiosError response =>
           match response with
           | Some r =>
               if (status r =? 404)%Z
               then throw (Error ("File not found: " ++ filePath))
               else handleGitLabError r ;;; throw error
           | None => throw error
           end
       | _ => throw error
       end).

(** The call of [getDefaultBranchRef]. *)
Definition lookup_request (api_url projectId : string) : Request :=
  mkRequest GET api_url (Project projectId) [] None.

(** The options of [getProject]; a key the object lacks is [None]. *)
Record ProjectOptions : Type := mkProjectOptions {
  license : option bool;
  statistics : option bool;
  with_custom_attributes : option bool
}.

Definition option_set (o : option bool) : bool :=
  match o with
  | Some b => b
  | None => false
  end.

(** The search parameters [getProject] appends, in the order of its [if]s. *)
Definition project_search (options : ProjectOptions) : list (string * string) :=
  ((if option_set (license options) then [("license", "true")] else [])
   ++ (if option_set (statistics options) then [("statistics", "true")] else [])
   ++ (if option_set (with_custom_attributes options)
       then [("with_custom_attributes", "true")] else []))%list.

(** [getProject(projectId, options = {})] *)
Definition getProject `{Env} (api_url projectId : string) (options : ProjectOptions)
  : Async GitLabRepository :=
  try_catch
    (response <- axios (mkRequest GET api_url (Project projectId)
                          (project_search options) None) ;;
     zod_parse GitLabRepositorySchema (data response))
    rethrow_as_gitlab_error.


(** The label of each [case] of the switch. *)
Definition case_name (t : ToolCase) : string :=
  match t with
  | GitLab.fork_repository => "fork_repository"
  | GitLab.add_merge_request_diff_comment => "add_merge_request_diff_comment"
  | GitLab.create_branch => "create_branch"
  | GitLab.search_repositories => "search_repositories"
  | GitLab.create_repository => "create_repository"
  | GitLab.get_file_contents => "get_file_contents"
  | GitLab.create_or_update_file => "create_or_update_file"
  | GitLab.push_files => "push_files"
  | GitLab.create_issue => "create_issue"
  | GitLab.create_merge_request => "create_merge_request"
  | GitLab.update_merge_request_note => "update_merge_request_note"
  | GitLab.get_merge_request => "get_merge_request"
  | GitLab.get_merge_request_diffs => "get_merge_request_diffs"
  | GitLab.update_merge_request => "update_merge_request"
  | GitLab.list_merge_request_discussions => "list_merge_request_discussions"
  | GitLab.list_namespaces => "list_namespaces"
  | GitLab.get_namespace => "get_namespace"
  | GitLab.verify_namespace => "verify_namespace"
  | GitLab.get_project => "get_project"
  | GitLab.list_projects => "list_projects"
  | GitLab.create_note => "create_note"
  | GitLab.list_issues => "list_issues"
  | GitLab.get_issue => "get_issue"
  | GitLab.update_issue => "update_issue"
  | GitLab.delete_issue => "delete_issue"
  | GitLab.list_issue_links => "list_issue_links"
  | GitLab.get_issue_link => "get_issue_link"
  | GitLab.create_issue_link => "create_issue_link"
  | GitLab.delete_issue_link => "delete_issue_link"
  | GitLab.list_labels => "list_labels"
  | GitLab.get_label => "get_label"
  | GitLab.create_label => "create_label"
  | GitLab.update_label => "update_label"
  | GitLab.delete_label => "delete_label"
  | GitLab.list_group_projects => "list_group_projects"
  | GitLab.list_open_merge_requests => "list_open_merge_requests"
  | GitLab.get_merge_request_details => "get_merge_request_details"
  | GitLab.get_merge_request_comments => "get_merge_request_comments"
  end.

(** Whether no string occurs twice in a list. *)
Fixpoint distinct (l : list string) : bool :=
  match l with
  | [] => true
  | x :: rest => negb (array_includes rest x) && distinct rest
  end.

End GitLabMore.

(** * Tool groups, [build/config.js] and [build/tools/index.js] *)

Module ToolGroups.
Import Js Script.

Definition comma : CodeUnit := 44%N.

(** [s.split(',')] *)
Fixpoint split_comma (s : JsString) : list JsString :=
  match s with
  | [] => [[]]
  | c :: rest =>
      if (c =? comma)%N then [] :: split_comma rest
      else match split_comma rest with
           | first :: others => (c :: first) :: others
           | [] => [[c]]
           end
  end.

(** [a === b] on strings. *)
Fixpoint js_eqb (a b : JsString) : bool :=
  match a, b with
  | [], [] => true
  | x :: a', y :: b' => (x =? y)%N && js_eqb a' b'
  | _, _ => false
  end.

(** [process.env], as far as [loadConfig] reads it. *)
Record ProcessEnv : Type := mkProcessEnv {
  PORT : option JsString;
  ENABLE_TOOLS : option JsString;
  PROXY_URL : option JsString;
  ATLASSIAN_HOST : option JsString;
  ATLASSIAN_EMAIL : option JsString;
  ATLASSIAN_TOKEN : option JsString;
  GITLAB_HOST : option JsString;
  GITLAB_TOKEN : option JsString;
  GITHUB_TOKEN : option JsString
}.

(** [z.infer<typeof ConfigSchema>] *)
Record Config : Type := mkConfig {
  port : JsString;
  enableTools : JsString;
  proxyUrl : option JsString;
  atlassianHost : option JsString;
  atlassianEmail : option JsString;
  atlassianToken : option JsString;
  gitlabHost : option JsString;
  gitlabToken : option JsString;
  githubToken : option JsString
}.

(** [z.string().optional().default(d)] on a variable of the environment. *)
Definition with_default (value : option JsString) (d : JsString) : JsString :=
  match value with
  | Some v => v
  | None => d
  end.

(** [loadConfig()]: every field of the environment is a string or absent,
    so [ConfigSchema.parse] succeeds and fills in the two defaults. *)
Definition loadConfig (env : ProcessEnv) : Config :=
  mkConfig (with_default (PORT env) (code_units "8080"))
    (with_default (ENABLE_TOOLS env) [])
    (PROXY_URL env) (ATLASSIAN_HOST env) (ATLASSIAN_EMAIL env) (ATLASSIAN_TOKEN env)
    (GITLAB_HOST env) (GITLAB_TOKEN env) (GITHUB_TOKEN env).

Definition is_empty (s : JsString) : bool :=
  match s with
  | [] => true
  | _ :: _ => false
  end.

(** [isToolGroupEnabled(config, group)] *)
Definition isToolGroupEnabled (config : Config) (group : JsString) : bool :=
  if is_empty (enableTools config) || is_empty (trim (enableTools config)) then true
  else
    let enabledGroups := map trim (split_comma (enableTools config)) in
    existsb (js_eqb group) enabledGroups.

(** Truthiness of a setting that may be absent. *)
Definition is_set (value : option JsString) : bool :=
  match value with
  | Some v => negb (is_empty v)
  | None => false
  end.

(** The server, as far as registration goes: the names passed to
    [server.registerTool], in the order of the calls. *)
Definition Server : Type := list string.

Definition registerTool (server : Server) (name : string) : Server :=
  (server ++ [name])%list.

Definition registerAll (server : Server) (names : list string) : Server :=
  fold_left registerTool names server.

Definition confluence_tools : list string :=
  ["confluence_search"; "confluence_get_page"; "confluence_create_page";
   "confluence_update_page"].

Definition github_tools : list string :=
  ["github_list_repos"; "github_get_repo"; "github_list_prs"; "github_get_pr_details";
   "github_create_pr_comment"; "github_get_file_content"; "github_create_pr";
   "github_pr_action"; "github_list_issues"; "github_get_issue"; "github_comment_issue";
   "github_issue_action"].

Definition gitlab_tools : list string :=
  ["gitlab_list_projects"; "gitlab_get_project"; "gitlab_list_mrs";
   "gitlab_get_mr_details"; "gitlab_create_MR_note"; "gitlab_get_file_content";
   "gitlab_list_pipelines"; "gitlab_list_commits"; "gitlab_get_commit_details";
   "gitlab_list_user_events"; "gitlab_list_group_users"; "gitlab_create_mr"].

Definition jira_tools : list string :=
  ["jira_get_issue"; "jira_search_issue"; "jira_list_sprints"; "jira_create_issue";
   "jira_update_issue"; "jira_list_statuses"; "jira_transition_issue"].

Definition script_tools : list string := ["execute_comand_line_script"].

(** [registerConfluenceTools(server, config)] *)
Definition registerConfluenceTools (server : Server) (config : Config) : Server :=
  if negb (is_set (atlassianHost config)) || negb (is_set (atlassianEmail config))
     || negb (is_set (atlassianToken config))
  then server
  else registerAll server confluence_tools.

(** [registerGitHubTools(server, config)] *)
Definition registerGitHubTools (server : Server) (config : Config) : Server :=
  if negb (is_set (githubToken config)) then server
  else registerAll server github_tools.

(** [registerGitLabTools(server, config)] *)
Definition registerGitLabTools (server : Server) (config : Config) : Server :=
  if negb (is_set (gitlabHost config)) || negb (is_set (gitlabToken config))
  then server
  else registerAll server gitlab_tools.

(** [registerJiraTools(server, config)] *)
Definition registerJiraTools (server : Server) (config : Config) : Server :=
  if negb (is_set (atlassianHost config)) || negb (is_set (atlassianEmail config))
     || negb (is_set (atlassianToken config))
  then server
  else registerAll server jira_tools.

(** [registerScriptTools(server, config)] *)
Definition registerScriptTools (server : Server) (config : Config) : Server :=
  registerAll server script_tools.

(** [registerTools(server, config)] *)
Definition registerTools (server : Server) (config : Config) : Server :=
  let server :=
    if isToolGroupEnabled config (code_units "confluence")
    then registerConfluenceTools server config else server in
  let server :=
    if isToolGroupEnabled config (code_units "github")
    then registerGitHubTools server config else server in
  let server :=
    if isToolGroupEnabled config (code_units "gitlab")
    then registerGitLabTools server config else server in
  let server :=
    if isToolGroupEnabled config (code_units "jira")
    then registerJiraTools server config else server in
  if isToolGroupEnabled config (code_units "script")
  then registerScriptTools server config else server.

(** A character that is a comma or white space. *)
Definition is_separator (c : CodeUnit) : bool :=
  (c =? comma)%N || is_whitespace c.

End ToolGroups.

(** * The GitHub issue tools, [build/tools/github/index.js] *)

Module GitHubIssues.
Import Js.

Inductive IssueCall : Type :=
| issues_get (owner repo : string) (issue_number : Q)
| issues_listComments (owner repo : string) (issue_number : Q)
| issues_createComment (owner repo : string) (issue_number : Q) (body : string)
| issues_update (owner repo : string) (issue_number : Q) (state : string).

Definition Log : Type := list IssueCall.

(** The [octokit.issues] methods: a stub that sees the calls already made. *)
Class Issues : Type := mkIssues {
  get : Log -> string -> string -> Q -> GitHub.Promise Json;
  listComments : Log -> string -> string -> Q -> GitHub.Promise Json;
  createComment : Log -> string -> string -> Q -> string -> GitHub.Promise Json;
  update : Log -> string -> string -> Q -> string -> GitHub.Promise Json
}.

Definition Async (A : Type) : Type := Js.Async IssueCall string A.

Definition await {A} (call : IssueCall) (promise : Log -> GitHub.Promise A) : Async A :=
  fun log =>
    match promise log with
    | GitHub.Resolved data => (Returned data, (log ++ [call])%list)
    | GitHub.Rejected message => (Thrown message, (log ++ [call])%list)
    end.

(** [z.enum(['close', 'reopen'])] *)
Inductive Action : Type := close | reopen.

Inductive IssueActionResult : Type :=
| ActionIssue (issue : Json)
| ActionError (error : string).

(** [action === 'close' ? 'closed' : 'open'] *)
Definition state_of (action : Action) : string :=
  match action with
  | close => "closed"
  | reopen => "open"
  end.

(** The handler of [github_issue_action]. *)
Definition IssueAction_handler `{Issues} (owner repo : string) (issueNumber : Q)
  (action : Action) (comment : option string) : Async IssueActionResult :=
  try_catch
    ((match comment with
      | Some body =>
          if truthy body
          then await (issues_createComment owner repo issueNumber body)
                 (fun log => createComment log owner repo issueNumber body) ;;; ret tt
          else ret tt
      | None => ret tt
      end) ;;;
     data <- await (issues_update owner repo issueNumber (state_of action))
               (fun log => update log owner repo issueNumber (state_of action)) ;;
     ret (ActionIssue data))
    (fun message => ret (ActionError ("Failed to perform action: " ++ message))).

Inductive GetIssueResult : Type :=
| IssueWithComments (issue comments : Json)
| GetIssueError (error : string).

(** The handler of [github_get_issue]. *)
Definition GetIssue_handler `{Issues} (owner repo : string) (issueNumber : Q)
  : Async GetIssueResult :=
  try_catch
    (issue <- await (issues_get owner repo issueNumber)
                (fun log => get log owner repo issueNumber) ;;
     comments <- await (issues_listComments owner repo issueNumber)
                   (fun log => listComments log owner repo issueNumber) ;;
     ret (IssueWithComments issue comments))
    (fun message => ret (GetIssueError ("Failed to get issue: " ++ message))).

End GitHubIssues.

(** * The Jira tools, [build/tools/jira/index.js] *)

Module Jira.
Import Js.

(** The own properties of an object, by key.  The order in which a
    JavaScript object enumerates its keys is not modelled. *)
Definition Fields : Type := list (string * Json).

Fixpoint lookup (k : string) (fields : Fields) : option Json :=
  match fields with
  | [] => None
  | (k', v) :: rest => if String.eqb k k' then Some v else lookup k rest
  end.

Fixpoint replace (k : string) (v : Json) (fields : Fields) : Fields :=
  match fields with
  | [] => [(k, v)]
  | (k', v') :: rest =>
      if String.eqb k k' then (k, v) :: rest else (k', v') :: replace k v rest
  end.

(** [fields[k] = v]: an assignment to [__proto__] reaches the prototype
    and leaves the own properties as they are. *)
Definition assign (k : string) (v : Json) (fields : Fields) : Fields :=
  if String.eqb k "__proto__" then fields else replace k v fields.

(** [if (s) fields.k = f(s)] for a string that may be absent. *)
Definition assign_if (k : string) (value : option string) (f : string -> Json)
  (fields : Fields) : Fields :=
  match value with
  | Some s => if truthy s then assign k (f s) fields else fields
  | None => fields
  end.

Definition named (s : string) : Json := JObject [("name", JString s)].

(** [Object.entries(customFields).forEach(([key, value]) =>
       { issueData.fields[key] = value; })] *)
Definition assign_all (customFields : Fields) (fields : Fields) : Fields :=
  fold_left (fun acc kv => assign (fst kv) (snd kv) acc) customFields fields.

(** The [fields] that the handler of [jira_update_issue] builds. *)
Definition update_fields (summary description assignee priority : option string)
  (labels : option (list string)) (customFields : option Fields) : Fields :=
  let fields := [] in
  let fields := assign_if "summary" summary JString fields in
  let fields := assign_if "description" description JString fields in
  let fields :=
    match assignee with
    | Some a => assign "assignee" (if truthy a then named a else JNull) fields
    | None => fields
    end in
  let fields := assign_if "priority" priority named fields in
  let fields :=
    match labels with
    | Some l => assign "labels" (JArray (map JString l)) fields
    | None => fields
    end in
  match customFields with
  | Some c => assign_all c fields
  | None => fields
  end.

(** One [jira.updateIssue(issueKey, issueData)] call. *)
Record UpdateCall : Type := mkUpdateCall {
  call_issueKey : string;
  call_fields : Fields
}.

Definition Log : Type := list UpdateCall.

(** The Jira client: a stub that sees the calls already made. *)
Class Client : Type := mkClient {
  updateIssue : Log -> string -> Fields -> GitHub.Promise Json
}.

Definition Async (A : Type) : Type := Js.Async UpdateCall string A.

Inductive UpdateResult : Type :=
| UpdateSuccess (issueKey : string)
| UpdateError (error : string).

(** The handler of [jira_update_issue]. *)
Definition UpdateIssue_handler `{Client} (issueKey : string)
  (summary description assignee priority : option string)
  (labels : option (list string)) (customFields : option Fields) : Async UpdateResult :=
  try_catch
    (let fields := update_fields summary description assignee priority labels customFields in
     (fun log : Log =>
        match updateIssue log issueKey fields with
        | GitHub.Resolved _ => (Returned tt, (log ++ [mkUpdateCall issueKey fields])%list)
        | GitHub.Rejected message =>
            (Thrown message, (log ++ [mkUpdateCall issueKey fields])%list)
        end) ;;;
     ret (UpdateSuccess issueKey))
    (fun message => ret (UpdateError ("Failed to update issue: " ++ message))).

End Jira.

(** * Scripts rewritten character by character *)

Module ScriptMore.
Import Script.


End ScriptMore.

(** * More stub collaborators *)

Module MoreScenario.
Import Js.

(** The stub schemas, except that the answer to a write has to be an
    object. *)
Definition strict_parse (s : GitLab.Schema) : Json -> GitLab.ZodResult (GitLab.z_infer s) :=
  match s as s0 return Json -> GitLab.ZodResult (GitLab.z_infer s0) with
  | GitLab.GitLabCreateUpdateFileResponseSchema => fun j =>
      match j with
      | JObject _ => GitLab.ZodOk j
      | _ => GitLab.ZodFail [GitLab.mkIssue [] "Expected object, received null"]
      end
  | other => Scenario.stub_parse other
  end.

Definition strict_env (remote : GitLab.Log -> GitLab.Request -> GitLab.Reply) : GitLab.Env :=
  GitLab.mkEnv strict_parse
    (fun issues => join "; " (map GitLab.format_issue issues))
    Scenario.stub_stringify
    (fun _ _ => "(json)")
    (fun s => s)
    remote
    Scenario.counting_body.

(** The file is absent, and the write is answered [201] with an empty
    body. *)
Definition remote_empty_answer : GitLab.Log -> GitLab.Request -> GitLab.Reply :=
  fun _ request =>
    match GitLab.req_method request with
    | GitLab.GET => Scenario.reply 404 "Not Found" (JString "")
    | _ => Scenario.reply 201 "Created" JNull
    end.

(** The project is there, its default branch is [trunk], and so is the
    file. *)
Definition remote_with_trunk : GitLab.Log -> GitLab.Request -> GitLab.Reply :=
  fun _ request =>
    match GitLab.req_endpoint request with
    | GitLab.Project _ =>
        Scenario.reply 200 "OK" (JObject [("default_branch", JString "trunk")])
    | GitLab.RepositoryFile _ _ =>
        Scenario.reply 200 "OK"
          (JObject [("content", JString "aGVsbG8="); ("encoding", JString "base64");
                    ("commit_id", JString "c1"); ("last_commit_id", JString "c0")])
    end.

(** Every call is refused for rate limiting. *)
Definition remote_rate_limited : GitLab.Log -> GitLab.Request -> GitLab.Reply :=
  fun _ _ => GitLab.HttpReply Scenario.rate_limited.

(** Comments are refused, the rest works. *)
Definition issues_comment_fails : GitHubIssues.Issues :=
  GitHubIssues.mkIssues
    (fun _ _ _ _ => GitHub.Resolved (JObject [("number", JNumber 7)]))
    (fun _ _ _ _ => GitHub.Resolved (JArray []))
    (fun _ _ _ _ _ => GitHub.Rejected "Validation Failed")
    (fun _ _ _ _ _ => GitHub.Resolved (JObject [("state", JString "closed")])).

(** An environment with nothing set but, perhaps, [ENABLE_TOOLS]. *)
Definition environment (selector : option Script.JsString) : ToolGroups.ProcessEnv :=
  ToolGroups.mkProcessEnv None selector None None None None None None None.


End MoreScenario.

(** * Properties *)

(** ** Strings *)

Section StringFacts.

Lemma append_assoc (a b c : string) : (a ++ b) ++ c = a ++ (b ++ c).
Proof. induction a as [|x a IH]; simpl; [reflexivity | now rewrite IH]. Qed.

Lemma append_nonempty (a b : string) : b <> "" -> a ++ b <> "".
Proof. destruct a; simpl; [auto | discriminate]. Qed.

(** [endsWith] holds exactly of the strings that have the suffix. *)
Lemma endsWith_spec (s suffix : string) :
  Js.endsWith s suffix = true <-> exists p, s = p ++ suffix.
Proof.
  induction s as [|a s IH].
  - change (Js.endsWith "" suffix) with (if String.eqb "" suffix then true else false).
    destruct (String.eqb_spec "" suffix) as [E|E]; split; intros H.
    + exists ""; exact E.
    + reflexivity.
    + discriminate.
    + destruct H as [p H]. destruct p; simpl in H; [congruence | discriminate].
  - change (Js.endsWith (String a s) suffix)
      with (if String.eqb (String a s) suffix then true else Js.endsWith s suffix).
    destruct (String.eqb_spec (String a s) suffix) as [E|E]; split; intros H.
    + exists ""; exact E.
    + reflexivity.
    + apply IH in H. destruct H as [p ->]. exists (String a p). reflexivity.
    + destruct H as [p H]. destruct p as [|b p]; simpl in H; [congruence|].
      injection H as _ H. apply IH. exists p; exact H.
Qed.

Lemma endsWith_append (p suffix : string) : Js.endsWith (p ++ suffix) suffix = true.
Proof. apply endsWith_spec. exists p; reflexivity. Qed.

Lemma last_char_append (p q : string) : q <> "" -> Js.last_char (p ++ q) = Js.last_char q.
Proof.
  intros Hq. induction p as [|a p IH]; simpl; [reflexivity|].
  rewrite IH. destruct (p ++ q) eqn:E; [|reflexivity].
  exfalso. exact (append_nonempty p q Hq E).
Qed.

Lemma endsWith_last_char (s suffix : string) c :
  suffix <> "" -> Js.last_char suffix = Some c -> Js.last_char s <> Some c ->
  Js.endsWith s suffix = false.
Proof.
  intros Hne Hl Hs. destruct (Js.endsWith s suffix) eqn:E; [|reflexivity].
  apply endsWith_spec in E. destruct E as [p ->].
  rewrite (last_char_append p suffix Hne) in Hs. congruence.
Qed.

Lemma slice_append_char (p : string) c : Js.slice_0_m1 (p ++ String c "") = p.
Proof.
  induction p as [|a p IH]; simpl; [reflexivity|].
  rewrite IH. destruct p; reflexivity.
Qed.

Lemma endsWith_slash_slice (s : string) :
  Js.endsWith s "/" = true -> s = Js.slice_0_m1 s ++ "/".
Proof.
  intros H. apply endsWith_spec in H. destruct H as [p ->].
  now rewrite slice_append_char.
Qed.

Lemma includes_append (a b sub : string) :
  Js.includes b sub = true -> Js.includes (a ++ b) sub = true.
Proof.
  intros H. induction a as [|c a IH]; [exact H|].
  change (Js.includes (String c a ++ b) sub)
    with (if Js.startsWith (String c (a ++ b)) sub then true else Js.includes (a ++ b) sub).
  rewrite IH. destruct (Js.startsWith (String c (a ++ b)) sub); reflexivity.
Qed.

End StringFacts.

(** ** [normalizeGitLabApiUrl] *)

Section NormalizeUrl.
Import GitLab.

Lemma normalize_fixed_no_slash (x : string) :
  Js.endsWith (x ++ "/api/v4") "/" = false.
Proof.
  apply endsWith_last_char with (c := "/"%char); [discriminate | reflexivity |].
  rewrite last_char_append by discriminate. discriminate.
Qed.

(** A string that ends with [/api/v4] is returned as it is. *)
Lemma normalize_fixed (x : string) :
  normalizeGitLabApiUrl (Some (x ++ "/api/v4")) = x ++ "/api/v4".
Proof.
  unfold normalizeGitLabApiUrl, Js.truthy_opt, Js.truthy.
  assert (Hne : x ++ "/api/v4" <> "") by (apply append_nonempty; discriminate).
  apply String.eqb_neq in Hne. rewrite Hne. simpl negb at 1. cbv iota.
  rewrite normalize_fixed_no_slash, endsWith_append. reflexivity.
Qed.

(** An input that ends with [/api/v4//] loses its last slash and no more. *)
Lemma normalize_double_slash (u : string) :
  Js.endsWith u "/api/v4//" = true ->
  normalizeGitLabApiUrl (Some u) = Js.slice_0_m1 u
  /\ Js.endsWith (normalizeGitLabApiUrl (Some u)) "/" = true.
Proof.
  intros H. apply endsWith_spec in H. destruct H as [p ->].
  assert (Hu : p ++ "/api/v4//" = (p ++ "/api/v4/") ++ "/")
    by (rewrite append_assoc; reflexivity).
  assert (Hn : p ++ "/api/v4/" = (p ++ "/api/v4") ++ "/")
    by (rewrite append_assoc; reflexivity).
  unfold normalizeGitLabApiUrl, Js.truthy_opt, Js.truthy.
  assert (Hne : p ++ "/api/v4//" <> "") by (apply append_nonempty; discriminate).
  apply String.eqb_neq in Hne. rewrite Hne. simpl negb at 1. cbv iota.
  rewrite Hu, endsWith_append, slice_append_char.
  assert (H4 : Js.endsWith (p ++ "/api/v4/") "/api/v4" = false).
  { apply endsWith_last_char with (c := "4"%char); [discriminate | reflexivity |].
    rewrite last_char_append by discriminate. discriminate. }
  rewrite H4, endsWith_append. simpl. split; [reflexivity|].
  rewrite Hn. apply endsWith_append.
Qed.

(** Unless the input ends with [/api/v4//], the output has the shape
    [x ++ "/api/v4"]. *)
Lemma normalize_shape (url : option string) :
  (forall u, url = Some u -> Js.endsWith u "/api/v4//" = false) ->
  exists x, normalizeGitLabApiUrl url = x ++ "/api/v4".
Proof.
  intros Hno. unfold normalizeGitLabApiUrl.
  destruct (Js.truthy_opt url) eqn:Ht; simpl negb; cbv iota.
  2:{ exists "https://gitlab.com". reflexivity. }
  destruct url as [u|]; [|discriminate].
  specialize (Hno u eq_refl).
  set (n := if Js.endsWith u "/" then Js.slice_0_m1 u else u).
  destruct (Js.endsWith n "/api/v4") eqn:E1; simpl.
  - apply endsWith_spec in E1. exact E1.
  - destruct (Js.endsWith n "/api/v4/") eqn:E2; simpl.
    + exfalso. apply endsWith_spec in E2. destruct E2 as [p E2].
      subst n. destruct (Js.endsWith u "/") eqn:Es.
      * apply endsWith_slash_slice in Es. rewrite E2 in Es.
        assert (Js.endsWith u "/api/v4//" = true).
        { apply endsWith_spec. exists p. rewrite Es, append_assoc. reflexivity. }
        congruence.
      * assert (Js.endsWith u "/" = true).
        { apply endsWith_spec. exists (p ++ "/api/v4"). rewrite E2, append_assoc.
          reflexivity. }
        congruence.
    + exists n. reflexivity.
Qed.

(** C10, as amended: on every input that does not end with [/api/v4//] a
    second application of [normalizeGitLabApiUrl] changes nothing, and the
    output ends with [/api/v4] and has no trailing slash. *)
Theorem normalizeGitLabApiUrl_idempotent_but_double_slash (url : option string) :
  (forall u, url = Some u -> Js.endsWith u "/api/v4//" = false) ->
  normalizeGitLabApiUrl (Some (normalizeGitLabApiUrl url)) = normalizeGitLabApiUrl url
  /\ Js.endsWith (normalizeGitLabApiUrl url) "/api/v4" = true
  /\ Js.endsWith (normalizeGitLabApiUrl url) "/" = false.
Proof.
  intros Hno. destruct (normalize_shape url Hno) as [x ->].
  split; [apply normalize_fixed|].
  split; [apply endsWith_append | apply normalize_fixed_no_slash].
Qed.

(** The amended statement at [https://gitlab.example.com/]. *)
Lemma normalizeGitLabApiUrl_idempotent_witness :
  normalizeGitLabApiUrl (Some (normalizeGitLabApiUrl (Some "https://gitlab.example.com/")))
  = normalizeGitLabApiUrl (Some "https://gitlab.example.com/")
  /\ Js.endsWith (normalizeGitLabApiUrl (Some "https://gitlab.example.com/")) "/api/v4" = true
  /\ Js.endsWith (normalizeGitLabApiUrl (Some "https://gitlab.example.com/")) "/" = false.
Proof.
  apply (normalizeGitLabApiUrl_idempotent_but_double_slash (Some "https://gitlab.example.com/")).
  intros u E. injection E as <-. reflexivity.
Defined.

(** C10 fails as stated: an input ending with [/api/v4//] loses one slash at
    each application, so the first output still ends with a slash and is not
    a fixed point. *)
Lemma normalizeGitLabApiUrl_not_idempotent :
  normalizeGitLabApiUrl (Some "https://gitlab.example.com/api/v4//")
    = "https://gitlab.example.com/api/v4/"
  /\ normalizeGitLabApiUrl
       (Some (normalizeGitLabApiUrl (Some "https://gitlab.example.com/api/v4//")))
     <> normalizeGitLabApiUrl (Some "https://gitlab.example.com/api/v4//")
  /\ Js.endsWith (normalizeGitLabApiUrl (Some "https://gitlab.example.com/api/v4//")) "/"
     = true.
Proof.
  split; [reflexivity|]. split; [|reflexivity]. vm_compute. discriminate.
Qed.

End NormalizeUrl.

(** ** Listing the tools *)

Section Listing.
Import GitLab.

Lemma array_includes_In (arr : list string) (x : string) :
  Js.array_includes arr x = true -> In x arr.
Proof.
  unfold Js.array_includes. intros H. apply existsb_exists in H.
  destruct H as [y [Hin Heq]]. apply String.eqb_eq in Heq. now subst.
Qed.

Lemma filter_Forall {A} (keep : A -> bool) (l : list A) :
  Forall (fun x => keep x = true) (filter keep l).
Proof.
  induction l as [|x l IH]; simpl; [constructor|].
  destruct (keep x) eqn:E; [constructor; assumption | assumption].
Qed.

(** C1: with read-only mode on, every tool of the listing has its name in
    [readOnlyTools]; with read-only mode off, the listing is [allTools]. *)
Theorem ListTools_read_only (cfg : Config) :
  if GITLAB_READ_ONLY_MODE cfg
  then Forall (fun tool => In (name tool) readOnlyTools) (ListTools cfg)
  else ListTools cfg = allTools.
Proof.
  unfold ListTools. destruct (GITLAB_READ_ONLY_MODE cfg); [|reflexivity].
  eapply Forall_impl; [|apply filter_Forall].
  intros tool H. now apply array_includes_In.
Qed.

(** With the variable set to [true], no tool outside [readOnlyTools] is
    listed, whatever the API URL. *)
Lemma ListTools_read_only_from_environment (url : option string) :
  filter (fun tool => negb (Js.array_includes readOnlyTools (name tool)))
    (ListTools (load_config url (Some "true")))
  = [].
Proof. reflexivity. Qed.

(** The listing in read-only mode. *)
Example read_only_listing :
  map name (ListTools (mkConfig "https://gitlab.com/api/v4" true))
  = ["search_repositories"; "get_file_contents"; "get_merge_request";
     "get_merge_request_diffs"; "list_merge_request_discussions"; "list_issues";
     "get_issue"; "list_issue_links"; "get_issue_link"; "list_namespaces";
     "get_namespace"; "verify_namespace"; "get_project"; "list_projects";
     "list_labels"; "get_label"; "list_group_projects"].
Proof. reflexivity. Qed.

(** The flag is on exactly when the environment variable is [true]. *)
Lemma read_only_mode_from_environment (url value : option string) :
  GITLAB_READ_ONLY_MODE (load_config url value) = true <-> value = Some "true".
Proof.
  unfold load_config; cbn [GITLAB_READ_ONLY_MODE]. destruct value as [v|].
  - rewrite String.eqb_eq. split; congruence.
  - split; discriminate.
Qed.

End Listing.

(** ** Calling a tool *)

Section Dispatch.
Import Js GitLab.
Context `{E : Env}.

(** What the handler does once the arguments are there and the name is a
    [case] label: parse, then run the case under the [catch] clause. *)
Lemma CallTool_case (cfg : Config) (request : CallToolRequest) t arguments log :
  params_arguments request = Some arguments ->
  case_of_name (params_name request) = Some t ->
  CallTool cfg request log =
    match parse (case_schema t) (JObject arguments) with
    | ZodOk args => try_catch (run_case (GITLAB_API_URL cfg) t args) catch_clause log
    | ZodFail issues =>
        (Thrown (Error ("Invalid arguments: " ++ join ", " (map format_issue issues))), log)
    end.
Proof.
  intros Ha Hn. unfold CallTool, try_catch, bind, zod_parse. rewrite Ha, Hn.
  destruct (parse (case_schema t) (JObject arguments)); reflexivity.
Qed.

(** C3: when the arguments fail the schema of the named tool, the call ends
    in an [Invalid arguments] error that joins path and reason of every
    issue, and the log of remote calls is as it was: no handler ran.  When
    they pass, the case runs on the parsed value. *)
Theorem CallTool_validates_first (cfg : Config) (request : CallToolRequest)
  t arguments log :
  params_arguments request = Some arguments ->
  case_of_name (params_name request) = Some t ->
  (forall issues,
     parse (case_schema t) (JObject arguments) = ZodFail issues ->
     CallTool cfg request log =
       (Thrown (Error ("Invalid arguments: "
                       ++ join ", "
                            (map (fun e => join "." (map segment_to_string (issue_path e))
                                           ++ ": " ++ issue_message e) issues))),
        log))
  /\ (forall args,
        parse (case_schema t) (JObject arguments) = ZodOk args ->
        CallTool cfg request log =
          try_catch (run_case (GITLAB_API_URL cfg) t args) catch_clause log).
Proof.
  intros Ha Hn. rewrite (CallTool_case cfg request t arguments log Ha Hn).
  split; intros x Hx; rewrite Hx; reflexivity.
Qed.

(** Without arguments nothing is parsed and nothing runs. *)
Lemma CallTool_without_arguments (cfg : Config) (n : string) log :
  CallTool cfg (mkCall n None) log = (Thrown (Error "Arguments are required"), log).
Proof. reflexivity. Qed.

(** An unknown name reaches the [default] branch. *)
Lemma CallTool_unknown (cfg : Config) (n : string) arguments log :
  case_of_name n = None ->
  CallTool cfg (mkCall n (Some arguments)) log = (Thrown (Error ("Unknown tool: " ++ n)), log).
Proof. intros H. unfold CallTool, try_catch. cbn. rewrite H. reflexivity. Qed.

(** Every advertised tool has its [case] in the switch. *)
Lemma allTools_have_cases :
  Forall (fun tool => exists t, case_of_name (name tool) = Some t) allTools.
Proof. unfold allTools. repeat constructor; eexists; reflexivity. Qed.

(** C2: read-only mode does not reach the dispatcher.  A call of an
    advertised tool outside [readOnlyTools] is answered with read-only mode
    on exactly as with read-only mode off: its [case] is found and, once the
    arguments parse, run. *)
Theorem CallTool_ignores_read_only_mode (api_url : string) (tool : ToolDescriptor)
  arguments log :
  In tool allTools ->
  ~ In (name tool) readOnlyTools ->
  exists t,
    case_of_name (name tool) = Some t
    /\ CallTool (mkConfig api_url true) (mkCall (name tool) (Some arguments)) log
       = CallTool (mkConfig api_url false) (mkCall (name tool) (Some arguments)) log
    /\ forall args,
         parse (case_schema t) (JObject arguments) = ZodOk args ->
         CallTool (mkConfig api_url true) (mkCall (name tool) (Some arguments)) log
         = try_catch (run_case api_url t args) catch_clause log.
Proof.
  intros Hin _.
  destruct (proj1 (Forall_forall _ _) allTools_have_cases tool Hin) as [t Ht].
  exists t. split; [exact Ht|]. split; [reflexivity|].
  intros args Hp.
  rewrite (CallTool_case _ (mkCall (name tool) (Some arguments)) t arguments log
             eq_refl Ht), Hp.
  reflexivity.
Qed.

(** Whatever the call, the flag changes nothing. *)
Lemma CallTool_same_in_both_modes (api_url : string) (request : CallToolRequest) log :
  CallTool (mkConfig api_url true) request log
  = CallTool (mkConfig api_url false) request log.
Proof. reflexivity. Qed.

End Dispatch.

Section DispatchExamples.
Import Js GitLab Scenario.

(** C3 at a call of [create_or_update_file] that lacks [content] and
    [branch]: the error names both, and the log stays empty. *)
Lemma CallTool_validates_first_witness :
  CallTool (H := stub_env remote_absent) (mkConfig "https://gitlab.com/api/v4" false)
    (mkCall "create_or_update_file"
       (Some [("project_id", JString "42"); ("file_path", JString "README.md");
              ("commit_message", JString "update")]))
    []
  = (Thrown (Error "Invalid arguments: content: Required, branch: Required"), []).
Proof.
  exact (proj1 (CallTool_validates_first (E := stub_env remote_absent)
                  (mkConfig "https://gitlab.com/api/v4" false)
                  (mkCall "create_or_update_file"
                     (Some [("project_id", JString "42"); ("file_path", JString "README.md");
                            ("commit_message", JString "update")]))
                  create_or_update_file
                  [("project_id", JString "42"); ("file_path", JString "README.md");
                   ("commit_message", JString "update")]
                  [] eq_refl eq_refl)
           [mkIssue [Key "content"] "Required"; mkIssue [Key "branch"] "Required"]
           eq_refl).
Defined.

(** The same call against a handler that counts: a case that is not
    embedded leaves its mark in the log only when the arguments parse. *)
Example counting_handler_runs_on_valid_arguments :
  CallTool (H := stub_env remote_absent) (mkConfig "https://gitlab.com/api/v4" false)
    (mkCall "create_issue" (Some [("project_id", JString "42")])) []
  = (Returned (TextContent "handled"),
     [mkRequest GET "https://gitlab.com/api/v4" (Project "handler") [] None]).
Proof. reflexivity. Qed.

(** C2 at [create_or_update_file], a tool outside [readOnlyTools]. *)
Lemma CallTool_ignores_read_only_mode_witness :
  exists t,
    case_of_name "create_or_update_file" = Some t
    /\ CallTool (H := stub_env remote_absent) (mkConfig "https://gitlab.com/api/v4" true)
         (mkCall "create_or_update_file" (Some write_arguments)) []
       = CallTool (H := stub_env remote_absent) (mkConfig "https://gitlab.com/api/v4" false)
           (mkCall "create_or_update_file" (Some write_arguments)) []
    /\ forall args,
         parse (Env := stub_env remote_absent) (case_schema t) (JObject write_arguments)
           = ZodOk args ->
         CallTool (H := stub_env remote_absent) (mkConfig "https://gitlab.com/api/v4" true)
           (mkCall "create_or_update_file" (Some write_arguments)) []
         = try_catch (run_case (H := stub_env remote_absent) "https://gitlab.com/api/v4" t args)
             catch_clause [].
Proof.
  apply (CallTool_ignores_read_only_mode (E := stub_env remote_absent)
           "https://gitlab.com/api/v4"
           (mkTool "create_or_update_file" "Create or update a file in a GitLab repository"
              CreateOrUpdateFileSchema)
           write_arguments []).
  - left. reflexivity.
  - cbv [name readOnlyTools In]. intuition discriminate.
Defined.

(** In read-only mode the write goes through to the remote. *)
Example write_in_read_only_mode :
  CallTool (H := stub_env remote_absent) (mkConfig "https://gitlab.com/api/v4" true)
    (mkCall "create_or_update_file" (Some write_arguments)) []
  = (Returned (TextContent "(json)"),
     [mkRequest GET "https://gitlab.com/api/v4" (RepositoryFile "42" "README.md")
        [("ref", "main")] None;
      mkRequest POST "https://gitlab.com/api/v4" (RepositoryFile "42" "README.md") []
        (Some (mkBody "main" "hello" "update" "text" None None None))]).
Proof. reflexivity. Qed.

End DispatchExamples.

(** ** Errors of the remote *)

Section RemoteErrors.
Import Js GitLab.
Context `{E : Env}.

Lemma handleGitLabError_throws (response : AxiosResponse) (log : Log) :
  (status response < 200 \/ 300 <= status response)%Z ->
  exists e,
    handleGitLabError response log = (Thrown e, log)
    /\ err_class e = PlainError
    /\ if (status response =? 403)%Z
          && includes (errorBody_of response) "User API Key Rate limit exceeded"
       then err_message e = "GitLab API Rate Limit Exceeded: " ++ errorBody_of response
            /\ is_rate_limit_error e = true
       else err_message e
              = "GitLab API error: " ++ string_of_Z (status response) ++ " "
                ++ statusText response ++ newline ++ errorBody_of response
            /\ is_rate_limit_error e = false.
Proof.
  intros Hs. unfold handleGitLabError.
  assert (Hb : ((status response <? 200) || (status response >=? 300))%Z = true).
  { apply orb_true_iff. destruct Hs as [Hs|Hs]; [left | right]; lia. }
  rewrite Hb.
  destruct ((status response =? 403)%Z
            && includes (errorBody_of response) "User API Key Rate limit exceeded");
    eexists; (split; [reflexivity|]); (split; [reflexivity|]); split; reflexivity.
Qed.

(** C8: on a response whose status is not 2xx [handleGitLabError] throws.
    On a 403 whose body contains the rate-limit signature the error is the
    rate-limit error; in every other case it is the generic error, whose
    message carries the status code and the body.  The two are told apart
    by [is_rate_limit_error]. *)
Theorem handleGitLabError_classifies (response : AxiosResponse) (log : Log) :
  (status response < 200 \/ 300 <= status response)%Z ->
  exists e,
    handleGitLabError response log = (Thrown e, log)
    /\ err_class e = PlainError
    /\ if (status response =? 403)%Z
          && includes (errorBody_of response) "User API Key Rate limit exceeded"
       then err_message e = "GitLab API Rate Limit Exceeded: " ++ errorBody_of response
            /\ is_rate_limit_error e = true
       else err_message e
              = "GitLab API error: " ++ string_of_Z (status response) ++ " "
                ++ statusText response ++ newline ++ errorBody_of response
            /\ is_rate_limit_error e = false.
Proof. exact (handleGitLabError_throws response log). Qed.

(** On a 2xx response it returns. *)
Lemma handleGitLabError_success (response : AxiosResponse) (log : Log) :
  (200 <= status response < 300)%Z ->
  handleGitLabError response log = (Returned tt, log).
Proof.
  intros Hs. unfold handleGitLabError.
  replace ((status response <? 200) || (status response >=? 300))%Z with false;
    [reflexivity|].
  symmetry. apply orb_false_iff. split; lia.
Qed.

End RemoteErrors.

Section RemoteErrorsExamples.
Import Js GitLab Scenario.

(** C8 at a 403 response with the rate-limit body. *)
Lemma handleGitLabError_classifies_witness :
  exists e,
    handleGitLabError (H := stub_env remote_absent) rate_limited [] = (Thrown e, [])
    /\ err_class e = PlainError
    /\ err_message e = "GitLab API Rate Limit Exceeded: User API Key Rate limit exceeded"
    /\ is_rate_limit_error e = true.
Proof.
  destruct (handleGitLabError_classifies (E := stub_env remote_absent) rate_limited [])
    as [e [H1 [H2 H3]]].
  - right. simpl. lia.
  - exists e. split; [exact H1|]. split; [exact H2|]. exact H3.
Defined.

(** A 403 without the signature, and a 500, are generic errors. *)
Example generic_error_403 :
  handleGitLabError (H := stub_env remote_absent)
    (mkResponse 403 "Forbidden" (JString "insufficient_scope")) []
  = (Thrown (Error ("GitLab API error: 403 Forbidden" ++ newline ++ "insufficient_scope")), []).
Proof. reflexivity. Qed.

End RemoteErrorsExamples.

(** ** Reading and writing files *)

Section Files.
Import Js GitLab.
Context `{E : Env}.

Lemma axios_logs (request : Request) (log : Log) :
  snd (axios request log) = (log ++ [request])%list.
Proof.
  unfold axios. destruct (remote log request) as [r|m]; [|reflexivity].
  destruct ((200 <=? status r)%Z && (status r <? 300)%Z); reflexivity.
Qed.

Lemma axios_resolves (request : Request) (log : Log) r :
  remote log request = HttpReply r -> (200 <= status r < 300)%Z ->
  axios request log = (Returned r, (log ++ [request])%list).
Proof.
  intros Hr Hs. unfold axios. rewrite Hr.
  replace ((200 <=? status r)%Z && (status r <? 300)%Z) with true; [reflexivity|].
  symmetry. apply andb_true_iff. split; lia.
Qed.

Lemma axios_rejects (request : Request) (log : Log) r :
  remote log request = HttpReply r -> (status r < 200 \/ 300 <= status r)%Z ->
  axios request log
  = (Thrown (mkError (AxiosError (Some r))
               ("Request failed with status code " ++ string_of_Z (status r))),
     (log ++ [request])%list).
Proof.
  intros Hr Hs. unfold axios. rewrite Hr.
  replace ((200 <=? status r)%Z && (status r <? 300)%Z) with false; [reflexivity|].
  symmetry. apply andb_false_iff. destruct Hs; [left | right]; lia.
Qed.

(** A 404 on the read is the not-found condition. *)
Lemma getFileContents_not_found api_url projectId filePath ref log r :
  truthy ref = true ->
  remote log (read_request api_url projectId filePath ref) = HttpReply r ->
  status r = 404%Z ->
  getFileContents api_url projectId filePath (Some ref) log
  = (Thrown (Error ("File not found: " ++ filePath)),
     (log ++ [read_request api_url projectId filePath ref])%list).
Proof.
  intros Ht Hr Hs. unfold getFileContents, bind, try_catch, ret. rewrite Ht.
  rewrite (axios_rejects _ log r Hr) by lia. cbn. rewrite Hs. reflexivity.
Qed.

(** Any other status that is not 2xx becomes the error of
    [handleGitLabError]. *)
Lemma getFileContents_remote_error api_url projectId filePath ref log r :
  truthy ref = true ->
  remote log (read_request api_url projectId filePath ref) = HttpReply r ->
  (status r < 200 \/ 300 <= status r)%Z -> status r <> 404%Z ->
  exists e,
    getFileContents api_url projectId filePath (Some ref) log
    = (Thrown e, (log ++ [read_request api_url projectId filePath ref])%list)
    /\ err_class e = PlainError
    /\ (err_message e = "GitLab API Rate Limit Exceeded: " ++ errorBody_of r
        \/ err_message e
           = "GitLab API error: " ++ string_of_Z (status r) ++ " " ++ statusText r
             ++ newline ++ errorBody_of r).
Proof.
  intros Ht Hr Hs H404.
  destruct (handleGitLabError_throws r
              (log ++ [read_request api_url projectId filePath ref])%list Hs)
    as [e [He [Hc Hm]]].
  exists e. split; [|split; [exact Hc|]].
  - unfold getFileContents, bind, try_catch, ret. rewrite Ht.
    rewrite (axios_rejects _ log r Hr Hs). cbn.
    replace (status r =? 404)%Z with false by (symmetry; apply Z.eqb_neq; exact H404).
    unfold bind. rewrite He. reflexivity.
  - destruct ((status r =? 403)%Z
              && includes (errorBody_of r) "User API Key Rate limit exceeded");
      [left | right]; apply Hm.
Qed.


(** A file comes back decoded, with the revision markers of the response. *)
Lemma getFileContents_file api_url projectId filePath ref log r file :
  truthy ref = true ->
  remote log (read_request api_url projectId filePath ref) = HttpReply r ->
  (200 <= status r < 300)%Z ->
  parse GitLabContentSchema (data r) = ZodOk (FileContent file) ->
  exists decoded,
    getFileContents api_url projectId filePath (Some ref) log
    = (Returned (FileContent decoded),
       (log ++ [read_request api_url projectId filePath ref])%list)
    /\ commit_id decoded = commit_id file
    /\ last_commit_id decoded = last_commit_id file.
Proof.
  intros Ht Hr Hs Hp. unfold getFileContents, bind, try_catch, ret, zod_parse. rewrite Ht.
  rewrite (axios_resolves _ log r Hr Hs). cbn. rewrite Hp. cbv [ret].
  destruct (content file) as [c|]; [destruct (truthy c)|];
    eexists; (split; [reflexivity|]); split; reflexivity.
Qed.

(** *** [createOrUpdateFile] *)

Lemma handleGitLabError_keeps_log (r : AxiosResponse) (log : Log) :
  snd (handleGitLabError r log) = log.
Proof.
  unfold handleGitLabError.
  destruct ((status r <? 200)%Z || (status r >=? 300)%Z); [|reflexivity].
  destruct ((status r =? 403)%Z
            && includes (errorBody_of r) "User API Key Rate limit exceeded");
    reflexivity.
Qed.

Lemma rethrow_keeps_log {A} (e : JsError) (log : Log) :
  snd (rethrow_as_gitlab_error (A := A) e log) = log.
Proof.
  unfold rethrow_as_gitlab_error. destruct (err_class e) as [| |[r|]]; try reflexivity.
  unfold bind. pose proof (handleGitLabError_keeps_log r log) as H.
  destruct (handleGitLabError r log) as [[[]|e'] log']; exact H.
Qed.

(** The write makes one call, whatever its fate. *)
Lemma send_file_logs method api_url projectId filePath body log :
  snd (send_file method api_url projectId filePath body log)
  = (log ++ [write_request method api_url projectId filePath body])%list.
Proof.
  unfold send_file, try_catch, bind.
  pose proof (axios_logs (write_request method api_url projectId filePath body) log) as H.
  destruct (axios (write_request method api_url projectId filePath body) log)
    as [[r|e] log']; cbn in H; subst log'.
  - unfold zod_parse.
    destruct (parse GitLabCreateUpdateFileResponseSchema (data r)); reflexivity.
  - apply rethrow_keeps_log.
Qed.

(** A read that fails with [File not found] in its message is followed by a
    create. *)
Lemma createOrUpdateFile_after_not_found api_url projectId filePath content
  commitMessage branch previousPath last_commit_id commit_id log e log' :
  getFileContents api_url projectId filePath (Some branch) log = (Thrown e, log') ->
  includes (err_message e) "File not found" = true ->
  createOrUpdateFile api_url projectId filePath content commitMessage branch
    previousPath last_commit_id commit_id log
  = send_file POST api_url projectId filePath
      (with_markers (initial_body branch content commitMessage previousPath)
         (if truthy_opt commit_id then commit_id else None)
         (if truthy_opt last_commit_id then last_commit_id else None))
      log'.
Proof.
  intros Hg Hi. unfold createOrUpdateFile, bind at 1, try_catch at 1, bind at 1.
  rewrite Hg, Hi. reflexivity.
Qed.

(** Any other failure of the read leaves [createOrUpdateFile] at once: no
    write is attempted. *)
Lemma createOrUpdateFile_after_failure api_url projectId filePath content
  commitMessage branch previousPath last_commit_id commit_id log e log' :
  getFileContents api_url projectId filePath (Some branch) log = (Thrown e, log') ->
  includes (err_message e) "File not found" = false ->
  createOrUpdateFile api_url projectId filePath content commitMessage branch
    previousPath last_commit_id commit_id log
  = (Thrown e, log').
Proof.
  intros Hg Hi. unfold createOrUpdateFile, bind at 1, try_catch at 1, bind at 1.
  rewrite Hg, Hi. reflexivity.
Qed.

(** A read that succeeds is followed by an update. *)
Lemma createOrUpdateFile_after_read api_url projectId filePath content
  commitMessage branch previousPath last_commit_id commit_id log fileData log' :
  getFileContents api_url projectId filePath (Some branch) log = (Returned fileData, log') ->
  createOrUpdateFile api_url projectId filePath content commitMessage branch
    previousPath last_commit_id commit_id log
  = send_file PUT api_url projectId filePath
      match fileData with
      | FileContent f =>
          with_markers (initial_body branch content commitMessage previousPath)
            (revision_marker commit_id (GitLab.commit_id f))
            (revision_marker last_commit_id (GitLab.last_commit_id f))
      | DirectoryContent _ => initial_body branch content commitMessage previousPath
      end
      log'.
Proof.
  intros Hg. unfold createOrUpdateFile, bind at 1, try_catch at 1, bind at 1.
  rewrite Hg. reflexivity.
Qed.

(** The file is absent (404): one read, then a create that carries no
    marker but the caller's. *)
Lemma createOrUpdateFile_creates api_url projectId filePath content
  commitMessage branch previousPath last_commit_id commit_id log r :
  truthy branch = true ->
  remote log (read_request api_url projectId filePath branch) = HttpReply r ->
  status r = 404%Z ->
  createOrUpdateFile api_url projectId filePath content commitMessage branch
    previousPath last_commit_id commit_id log
  = send_file POST api_url projectId filePath
      (with_markers (initial_body branch content commitMessage previousPath)
         (if truthy_opt commit_id then commit_id else None)
         (if truthy_opt last_commit_id then last_commit_id else None))
      (log ++ [read_request api_url projectId filePath branch])%list.
Proof.
  intros Ht Hr Hs.
  apply createOrUpdateFile_after_not_found
    with (e := Error ("File not found: " ++ filePath)).
  - now apply getFileContents_not_found with (r := r).
  - reflexivity.
Qed.

(** The file is there: one read, then an update that carries the markers
    of the read unless the caller gave his own. *)
Lemma createOrUpdateFile_updates api_url projectId filePath content
  commitMessage branch previousPath last_commit_id commit_id log r file :
  truthy branch = true ->
  remote log (read_request api_url projectId filePath branch) = HttpReply r ->
  (200 <= status r < 300)%Z ->
  parse GitLabContentSchema (data r) = ZodOk (FileContent file) ->
  createOrUpdateFile api_url projectId filePath content commitMessage branch
    previousPath last_commit_id commit_id log
  = send_file PUT api_url projectId filePath
      (with_markers (initial_body branch content commitMessage previousPath)
         (revision_marker commit_id (GitLab.commit_id file))
         (revision_marker last_commit_id (GitLab.last_commit_id file)))
      (log ++ [read_request api_url projectId filePath branch])%list.
Proof.
  intros Ht Hr Hs Hp.
  destruct (getFileContents_file api_url projectId filePath branch log r file Ht Hr Hs Hp)
    as [decoded [Hg [Hc Hl]]].
  rewrite (createOrUpdateFile_after_read _ _ _ _ _ _ _ _ _ _ _ _ Hg), Hc, Hl.
  reflexivity.
Qed.

(** The read fails with a status other than 404, and the body of the
    response contains [File not found]: the failure is taken for an absent
    file, and a create follows. *)
Lemma createOrUpdateFile_mistakes_failure_for_absence api_url projectId filePath
  content commitMessage branch previousPath last_commit_id commit_id log r :
  truthy branch = true ->
  remote log (read_request api_url projectId filePath branch) = HttpReply r ->
  (status r < 200 \/ 300 <= status r)%Z -> status r <> 404%Z ->
  includes (errorBody_of r) "File not found" = true ->
  createOrUpdateFile api_url projectId filePath content commitMessage branch
    previousPath last_commit_id commit_id log
  = send_file POST api_url projectId filePath
      (with_markers (initial_body branch content commitMessage previousPath)
         (if truthy_opt commit_id then commit_id else None)
         (if truthy_opt last_commit_id then last_commit_id else None))
      (log ++ [read_request api_url projectId filePath branch])%list.
Proof.
  intros Ht Hr Hs H404 Hi.
  destruct (getFileContents_remote_error api_url projectId filePath branch log r
              Ht Hr Hs H404) as [e [Hg [_ Hm]]].
  apply createOrUpdateFile_after_not_found with (e := e); [exact Hg|].
  destruct Hm as [-> | ->].
  - now apply includes_append.
  - repeat apply includes_append. exact Hi.
Qed.

(** A read that gets no response at all propagates, unless the message of
    the network error itself contains [File not found]. *)
Lemma createOrUpdateFile_network_failure api_url projectId filePath content
  commitMessage branch previousPath last_commit_id commit_id log message :
  truthy branch = true ->
  remote log (read_request api_url projectId filePath branch) = NoReply message ->
  includes message "File not found" = false ->
  createOrUpdateFile api_url projectId filePath content commitMessage branch
    previousPath last_commit_id commit_id log
  = (Thrown (mkError (AxiosError None) message),
     (log ++ [read_request api_url projectId filePath branch])%list).
Proof.
  intros Ht Hr Hi.
  apply createOrUpdateFile_after_failure; [|exact Hi].
  unfold getFileContents, bind, try_catch, ret, axios. rewrite Ht, Hr. reflexivity.
Qed.

End Files.

Section FilesExamples.
Import Js GitLab Scenario.

(** C4 at the input where the code departs from it: the read of
    [README.md] is answered [500 Internal Server Error], and the body of the
    response contains the words [File not found].  The status is not 404,
    and yet the failure does not propagate: the log shows the read followed
    by a create. *)
Theorem createOrUpdateFile_creates_after_server_error :
  createOrUpdateFile (H := stub_env remote_broken_read) api "42" "README.md" "hello"
    "update" "main" None None None []
  = (Returned (JObject [("file_path", JString "README.md"); ("branch", JString "main")]),
     [read_request api "42" "README.md" "main";
      write_request POST api "42" "README.md"
        (mkBody "main" "hello" "update" "text" None None None)]).
Proof. reflexivity. Qed.

(** The error that the read itself ends in on that remote. *)
Example read_after_server_error :
  getFileContents (H := stub_env remote_broken_read) api "42" "README.md" (Some "main") []
  = (Thrown (Error ("GitLab API error: 500 Internal Server Error" ++ newline
                    ++ server_error_body)),
     [read_request api "42" "README.md" "main"]).
Proof. reflexivity. Qed.

(** The file is absent: a read, then a create. *)
Example create_when_absent :
  createOrUpdateFile (H := stub_env remote_absent) api "42" "README.md" "hello"
    "update" "main" None None None []
  = (Returned (JObject [("file_path", JString "README.md"); ("branch", JString "main")]),
     [read_request api "42" "README.md" "main";
      write_request POST api "42" "README.md"
        (mkBody "main" "hello" "update" "text" None None None)]).
Proof. reflexivity. Qed.

(** The file is there: a read, then an update with the markers read. *)
Example update_when_present :
  createOrUpdateFile (H := stub_env remote_present) api "42" "README.md" "hello"
    "update" "main" None None None []
  = (Returned (JObject [("file_path", JString "README.md"); ("branch", JString "main")]),
     [read_request api "42" "README.md" "main";
      write_request PUT api "42" "README.md"
        (mkBody "main" "hello" "update" "text" None (Some "c1") (Some "c0"))]).
Proof. reflexivity. Qed.

(** The caller's markers win over those read. *)
Example update_with_given_markers :
  snd (createOrUpdateFile (H := stub_env remote_present) api "42" "README.md" "hello"
         "update" "main" None (Some "mine") None [])
  = [read_request api "42" "README.md" "main";
     write_request PUT api "42" "README.md"
       (mkBody "main" "hello" "update" "text" None (Some "c1") (Some "mine"))].
Proof. reflexivity. Qed.


End FilesExamples.

(** ** Paths that denote a directory *)

Section Directories.
Import Js.


End Directories.

Section DirectoriesExamples.
Import Js Scenario.


End DirectoriesExamples.

(** ** Approving or closing a pull request *)

Section PullRequests.
Import Js GitHub.

(** C9, as amended: when closing succeeds and the comment is refused, the
    handler returns [Failed to perform action: ] followed by the message of
    the refusal, after both calls were made.  A client on which closing
    itself is refused with that message gets the same answer: the result
    does not say that the pull request was closed. *)
Theorem PRAction_comment_failure_is_plain_failure (O1 O2 : Octokit)
  owner repo prNumber body log pr message :
  truthy body = true ->
  update (Octokit := O1) log owner repo prNumber "closed" = Resolved pr ->
  createComment (Octokit := O1) (log ++ [pulls_update owner repo prNumber "closed"])%list
    owner repo prNumber body = Rejected message ->
  update (Octokit := O2) log owner repo prNumber "closed" = Rejected message ->
  PRAction_handler (H := O1) owner repo prNumber close (Some body) log
    = (Returned (ActionError ("Failed to perform action: " ++ message)),
       (log ++ [pulls_update owner repo prNumber "closed";
                issues_createComment owner repo prNumber body])%list)
  /\ PRAction_handler (H := O2) owner repo prNumber close (Some body) log
     = (Returned (ActionError ("Failed to perform action: " ++ message)),
        (log ++ [pulls_update owner repo prNumber "closed"])%list).
Proof.
  intros Ht Hu Hc Hu2. split.
  - unfold PRAction_handler, try_catch, bind, await. rewrite Hu, Ht. cbn.
    rewrite Hc. rewrite <- app_assoc. reflexivity.
  - unfold PRAction_handler, try_catch, bind, await. rewrite Hu2. reflexivity.
Qed.

(** Without a comment, closing is a single call. *)
Lemma PRAction_close_without_comment `{O : Octokit} owner repo prNumber log pr :
  update log owner repo prNumber "closed" = Resolved pr ->
  PRAction_handler owner repo prNumber close None log
  = (Returned (ActionPullRequest pr), (log ++ [pulls_update owner repo prNumber "closed"])%list).
Proof.
  intros Hu. unfold PRAction_handler, try_catch, bind, await. rewrite Hu. reflexivity.
Qed.

(** Approving is a single call that carries the comment. *)
Lemma PRAction_approve `{O : Octokit} owner repo prNumber comment log :
  snd (PRAction_handler owner repo prNumber approve comment log)
  = (log ++ [pulls_createReview owner repo prNumber "APPROVE" comment])%list.
Proof.
  unfold PRAction_handler, try_catch, bind, await.
  destruct (createReview log owner repo prNumber "APPROVE" comment); reflexivity.
Qed.

End PullRequests.

Section PullRequestsExamples.
Import Js GitHub Scenario.

(** The amended C9 on the two stub clients. *)
Lemma PRAction_comment_failure_is_plain_failure_witness :
  PRAction_handler (H := octokit_comment_fails) "octo" "kit" 7 close (Some "done") []
    = (Returned (ActionError "Failed to perform action: Validation Failed"),
       [pulls_update "octo" "kit" 7 "closed"; issues_createComment "octo" "kit" 7 "done"])
  /\ PRAction_handler (H := octokit_update_fails) "octo" "kit" 7 close (Some "done") []
     = (Returned (ActionError "Failed to perform action: Validation Failed"),
        [pulls_update "octo" "kit" 7 "closed"]).
Proof.
  apply (PRAction_comment_failure_is_plain_failure octokit_comment_fails
           octokit_update_fails "octo" "kit" 7 "done" []
           (JObject [("state", JString "closed")]) "Validation Failed");
    reflexivity.
Defined.

(** C9 fails as stated: the pull request was closed on the first client and
    not on the second, and the handler gives the same result on both; on the
    first, the result carries no [pullRequest]. *)
Lemma PRAction_hides_partial_success :
  update (Octokit := octokit_comment_fails) [] "octo" "kit" 7 "closed"
    = Resolved (JObject [("state", JString "closed")])
  /\ update (Octokit := octokit_update_fails) [] "octo" "kit" 7 "closed"
     = Rejected "Validation Failed"
  /\ fst (PRAction_handler (H := octokit_comment_fails) "octo" "kit" 7 close
            (Some "done") [])
     = fst (PRAction_handler (H := octokit_update_fails) "octo" "kit" 7 close
              (Some "done") [])
  /\ fst (PRAction_handler (H := octokit_comment_fails) "octo" "kit" 7 close
            (Some "done") [])
     = Returned (ActionError "Failed to perform action: Validation Failed").
Proof. repeat split. Qed.

End PullRequestsExamples.

(** ** The script tool *)

Section Regexes.
Import Js Script.

Lemma trimStart_nil (s : JsString) : trimStart s = [] -> blank s.
Proof.
  induction s as [|c s IH]; simpl; intros H; [constructor|].
  destruct (is_whitespace c) eqn:Ec; [|discriminate].
  constructor; [exact Ec | exact (IH H)].
Qed.

Lemma blank_trimStart (s : JsString) : blank (trimStart s) -> trimStart s = [].
Proof.
  induction s as [|c s IH]; simpl; intros H; [reflexivity|].
  destruct (is_whitespace c) eqn:Ec; [exact (IH H)|].
  inversion H; congruence.
Qed.

Lemma blank_rev (s : JsString) : blank (rev s) -> blank s.
Proof.
  unfold blank. rewrite !Forall_forall. intros H c Hc. apply H, in_rev.
  now rewrite rev_involutive.
Qed.

(** [trim] leaves nothing only of a script that is all white space. *)
Lemma trim_nil (s : JsString) : trim s = [] -> blank s.
Proof.
  unfold trim. intros H.
  assert (H1 : trimStart (rev (trimStart s)) = []).
  { destruct (trimStart (rev (trimStart s))) as [|c l]; [reflexivity|].
    simpl in H. apply app_eq_nil in H. destruct H; discriminate. }
  apply trimStart_nil, blank_rev, blank_trimStart in H1. now apply trimStart_nil.
Qed.

Lemma many_blank (a : Atom) (s : JsString) :
  blank s -> forall prev m, In m (many a prev s) -> blank (snd m).
Proof.
  induction s as [|c s IH]; intros Hb prev m Hin; simpl in Hin.
  - destruct Hin as [<-|[]]. exact Hb.
  - destruct Hin as [<-|Hin]; [exact Hb|].
    destruct (atom_matches a c); [|destruct Hin].
    inversion Hb; subst. eapply IH; eauto.
Qed.

Lemma flat_map_nil {A B} (f : A -> list B) (l : list A) :
  (forall x, In x l -> f x = []) -> flat_map f l = [].
Proof.
  induction l as [|x l IH]; simpl; intros H; [reflexivity|].
  rewrite (H x) by now left. apply IH. intros y Hy. apply H. now right.
Qed.

(** On a blank input every match leaves a blank rest, and an inky
    expression has no match. *)
Lemma ends_blank (r : Regex) :
  forall prev s, blank s ->
    (forall m, In m (ends r prev s) -> blank (snd m))
    /\ (Inky r -> ends r prev s = []).
Proof.
  induction r as [| |a|a|r1 IH1 r2 IH2|r1 IH1 r2 IH2|r IH]; intros prev s Hb; simpl.
  - split; [|intros []]. intros m [<-|[]]. exact Hb.
  - split; [|intros []].
    destruct (xorb _ _); intros m Hin; [destruct Hin as [<-|[]]; exact Hb | destruct Hin].
  - destruct s as [|c s]; [split; [intros m []|reflexivity]|].
    inversion Hb as [|? ? Hc Hs]; subst. split.
    + destruct (atom_matches a c); intros m Hin;
        [destruct Hin as [<-|[]]; exact Hs | destruct Hin].
    + intros Hi. destruct (atom_matches a c) eqn:Em; [|reflexivity].
      apply Hi in Em. congruence.
  - destruct s as [|c s]; [split; [intros m []|reflexivity]|].
    inversion Hb as [|? ? Hc Hs]; subst. split.
    + destruct (atom_matches a c); intros m Hin; [|destruct Hin].
      eapply many_blank; eauto.
    + intros Hi. destruct (atom_matches a c) eqn:Em; [|reflexivity].
      apply Hi in Em. congruence.
  - destruct (IH1 prev s Hb) as [Hrest1 Hink1]. split.
    + intros m Hin. apply in_flat_map in Hin. destruct Hin as [x [Hx Hm]].
      exact (proj1 (IH2 (fst x) (snd x) (Hrest1 x Hx)) m Hm).
    + intros [Hi|Hi].
      * rewrite (Hink1 Hi). reflexivity.
      * apply flat_map_nil. intros x Hx.
        exact (proj2 (IH2 (fst x) (snd x) (Hrest1 x Hx)) Hi).
  - destruct (IH1 prev s Hb) as [Hrest1 Hink1].
    destruct (IH2 prev s Hb) as [Hrest2 Hink2]. split.
    + intros m Hin. apply in_app_or in Hin. destruct Hin; auto.
    + intros [Hi1 Hi2]. rewrite (Hink1 Hi1), (Hink2 Hi2). reflexivity.
  - destruct (IH prev s Hb) as [Hrest _]. split; [|intros []].
    intros m Hin. apply in_app_or in Hin. destruct Hin as [Hin|[<-|[]]]; auto.
Qed.

Lemma search_blank (r : Regex) (s : JsString) :
  Inky r -> blank s -> forall prev, search r prev s = false.
Proof.
  intros Hi. induction s as [|c s IH]; intros Hb prev; simpl; unfold matches_here;
    rewrite (proj2 (ends_blank r prev _ Hb) Hi); [reflexivity|].
  inversion Hb; subst. now apply IH.
Qed.

(** The characters a letter of a pattern matches: itself and its other
    case. *)
Lemma canonicalize_inv (c k : CodeUnit) :
  canonicalize c = k -> c = k \/ c = (k + 32)%N.
Proof.
  unfold canonicalize. destruct ((97 <=? c)%N && (c <=? 122)%N) eqn:E; [|now left].
  apply andb_true_iff in E. destruct E as [E1 E2].
  apply N.leb_le in E1, E2. intros <-. right. lia.
Qed.

Lemma Lit_inky (l : CodeUnit) :
  is_whitespace (canonicalize l) = false ->
  is_whitespace (canonicalize l + 32)%N = false ->
  forall c, atom_matches (Lit l) c = true -> is_whitespace c = false.
Proof.
  intros H1 H2 c Hm. simpl in Hm. apply N.eqb_eq in Hm.
  destruct (canonicalize_inv c _ Hm) as [-> | ->]; assumption.
Qed.

(** Each pattern of the deny-list begins, after its [\b], with a letter. *)
Lemma dangerousCommands_inky : Forall Inky dangerousCommands.
Proof.
  unfold dangerousCommands, lit. cbv [list_ascii_of_string word].
  repeat (apply Forall_cons;
          [right; repeat (try (refine (Lit_inky _ _ _); reflexivity); left) |]).
  apply Forall_nil.
Qed.

(** A script that the deny-list matches is not empty, trimmed or not. *)
Lemma dangerous_not_empty (script : JsString) :
  existsb (fun pattern => test pattern script) dangerousCommands = true ->
  script_is_empty script = false.
Proof.
  unfold script_is_empty.
  intros Hd. apply existsb_exists in Hd. destruct Hd as [p [Hin Ht]].
  assert (Hi : Inky p) by exact (proj1 (Forall_forall _ _) dangerousCommands_inky p Hin).
  assert (Hnb : ~ blank script).
  { intros Hb. unfold test in Ht. rewrite (search_blank p script Hi Hb None) in Ht.
    discriminate. }
  destruct script as [|c s]; [exfalso; apply Hnb; constructor|].
  destruct (trim (c :: s)) eqn:Et; [|reflexivity].
  exfalso. apply Hnb. now apply trim_nil.
Qed.

End Regexes.

Section ScriptHandler.
Import Js Script.
Context `{S : Shell} `{R : Render}.

(** C6, as amended: a script that a pattern of the deny-list matches never
    reaches [exec]: the log of subprocesses is as it was.  The answer is the
    dangerous-script error when the time-out is in range, and the
    invalid-time-out error, which is checked first, when it is not. *)
Theorem dangerous_script_is_never_run (script : JsString) (timeoutSeconds : option Q)
  (log : Log) :
  existsb (fun pattern => test pattern script) dangerousCommands = true ->
  handler script timeoutSeconds log
  = (Returned (if timeout_out_of_range (timeout_or_default timeoutSeconds)
               then invalid_timeout_error
               else dangerous_script_error),
     log).
Proof.
  intros Hd. unfold handler, try_catch.
  rewrite (dangerous_not_empty script Hd), Hd.
  destruct (timeout_out_of_range (timeout_or_default timeoutSeconds)); reflexivity.
Qed.

(** The two guards before the deny-list leave the log alone as well. *)
Lemma rejected_script_is_never_run (script : JsString) (timeoutSeconds : option Q)
  (log : Log) :
  script_is_empty script = true
  \/ timeout_out_of_range (timeout_or_default timeoutSeconds) = true ->
  snd (handler script timeoutSeconds log) = log.
Proof.
  intros H. unfold handler, try_catch.
  destruct (script_is_empty script); [reflexivity|].
  destruct H as [H|H]; [discriminate|]. rewrite H. reflexivity.
Qed.

(** The handler never throws. *)
Lemma handler_returns (script : JsString) (timeoutSeconds : option Q) (log : Log) :
  exists result, fst (handler script timeoutSeconds log) = Returned result.
Proof.
  unfold handler, try_catch, bind, execAsync.
  destruct (script_is_empty script); [eexists; reflexivity|].
  destruct (timeout_out_of_range _); [eexists; reflexivity|].
  destruct (existsb _ _); [eexists; reflexivity|].
  destruct (exec log _) as [out err|e]; cbn; [eexists; reflexivity|].
  destruct (match signal e with Some s => String.eqb s "SIGTERM" | None => false end);
    eexists; reflexivity.
Qed.


End ScriptHandler.

Section ScriptExamples.
Import Js Script Scenario.

(** The amended C6 at [rm -rf /] with the default time-out. *)
Lemma dangerous_script_is_never_run_witness :
  handler (H := shell_ok) (H0 := render_seconds) (code_units "rm -rf /") None []
  = (Returned dangerous_script_error, []).
Proof.
  exact (dangerous_script_is_never_run (S := shell_ok) (R := render_seconds)
           (code_units "rm -rf /") None [] eq_refl).
Defined.

(** C6 fails as stated: with a time-out of 0 seconds the answer to
    [rm -rf /] is the invalid-time-out error, not the dangerous-script
    error. *)
Lemma dangerous_script_with_bad_timeout :
  existsb (fun pattern => test pattern (code_units "rm -rf /")) dangerousCommands = true
  /\ handler (H := shell_ok) (H0 := render_seconds) (code_units "rm -rf /") (Some 0%Q) []
     = (Returned invalid_timeout_error, [])
  /\ invalid_timeout_error <> dangerous_script_error.
Proof. split; [reflexivity|]. split; [reflexivity|]. discriminate. Qed.



(** The deny-list on a few scripts: it looks for the command as a word of
    its own. *)
Example deny_list_samples :
  map (fun s => existsb (fun pattern => test pattern (code_units s)) dangerousCommands)
    ["rm -rf /"; "RM  -R ~"; "rm --recursive /tmp"; "format c:/"; "mkfs.ext4 /dev/sda";
     "dd if=/dev/zero of=/dev/sda"; "wipe disk";
     "echo hello"; "rm -rf ./build"; "xrm -rf /"; "swipe left"; "rm -rfv /"]
  = [true; true; true; true; true; true; true;
     false; false; false; false; false].
Proof. reflexivity. Qed.

(** After exit status 0 there is no [error]. *)
Example zero_exit :
  handler (H := shell_ok) (H0 := render_seconds) (code_units "echo done") None []
  = (Returned (mkResult None (Some "done") (Some "") (Some (ExitStatus 0))),
     [mkExec (code_units "echo done") 30000 (1024 * 1024)%Z]).
Proof. reflexivity. Qed.

End ScriptExamples.

(** * Further properties *)

(** ** Reading a file *)

Section FileReads.
Import Js GitLab GitLabMore.
Context `{E : Env}.

(** [getFileContents] resolves [ref], then fetches. *)
Lemma getFileContents_unfold api_url projectId filePath ref :
  getFileContents api_url projectId filePath ref
  = (ref' <- (match ref with
              | Some r => if truthy r then ret r else getDefaultBranchRef api_url projectId
              | None => getDefaultBranchRef api_url projectId
              end) ;;
     fetch_file api_url projectId filePath ref').
Proof. reflexivity. Qed.


Lemma fetch_file_logs api_url projectId filePath ref log :
  snd (fetch_file api_url projectId filePath ref log)
  = (log ++ [read_request api_url projectId filePath ref])%list.
Proof.
  unfold fetch_file, try_catch, bind.
  pose proof (axios_logs (read_request api_url projectId filePath ref) log) as H.
  destruct (axios (read_request api_url projectId filePath ref) log) as [[r|e] log'];
    cbn in H; subst log'.
  - unfold zod_parse. destruct (parse GitLabContentSchema (data r)); reflexivity.
  - destruct (err_class e) as [| |[r|]]; try reflexivity.
    destruct (status r =? 404)%Z; [reflexivity|].
    unfold bind. pose proof (handleGitLabError_keeps_log r
      (log ++ [read_request api_url projectId filePath ref])%list) as H.
    destruct (handleGitLabError r _) as [[[]|e'] log']; exact H.
Qed.

Lemma getDefaultBranchRef_resolves api_url projectId log r project :
  remote log (lookup_request api_url projectId) = HttpReply r ->
  (200 <= status r < 300)%Z ->
  parse GitLabRepositorySchema (data r) = ZodOk project ->
  getDefaultBranchRef api_url projectId log
  = (Returned (match default_branch project with Some b => b | None => "main" end),
     (log ++ [lookup_request api_url projectId])%list).
Proof.
  intros Hr Hs Hp. unfold getDefaultBranchRef, try_catch, bind, zod_parse.
  change (mkRequest GET api_url (Project projectId) [] None)
    with (lookup_request api_url projectId).
  rewrite (axios_resolves _ log r Hr Hs). cbn. rewrite Hp. reflexivity.
Qed.

(** X1: without a [ref] (absent or empty), [getFileContents] first looks up
    the project, once, and then fetches the file, once, at the project's
    default branch, or at [main] when the project names none. *)
Theorem getFileContents_without_ref api_url projectId filePath ref log r project :
  truthy_opt ref = false ->
  remote log (lookup_request api_url projectId) = HttpReply r ->
  (200 <= status r < 300)%Z ->
  parse GitLabRepositorySchema (data r) = ZodOk project ->
  getFileContents api_url projectId filePath ref log
  = fetch_file api_url projectId filePath
      (match default_branch project with Some b => b | None => "main" end)
      (log ++ [lookup_request api_url projectId])%list
  /\ snd (getFileContents api_url projectId filePath ref log)
     = (log ++ [lookup_request api_url projectId;
                read_request api_url projectId filePath
                  (match default_branch project with Some b => b | None => "main" end)])%list.
Proof.
  intros Ht Hr Hs Hp.
  assert (Hg : getFileContents api_url projectId filePath ref log
               = fetch_file api_url projectId filePath
                   (match default_branch project with Some b => b | None => "main" end)
                   (log ++ [lookup_request api_url projectId])%list).
  { rewrite getFileContents_unfold. unfold bind at 1.
    destruct ref as [s|]; cbn in Ht; [rewrite Ht|];
      rewrite (getDefaultBranchRef_resolves _ _ _ r project Hr Hs Hp); reflexivity. }
  split; [exact Hg|]. rewrite Hg, fetch_file_logs, <- app_assoc. reflexivity.
Qed.

(** X2: when that lookup is answered with a status that is not 2xx, no
    file is fetched: [getFileContents] throws the error of
    [handleGitLabError] after the one call. *)
Theorem getFileContents_lookup_refused api_url projectId filePath ref log r :
  truthy_opt ref = false ->
  remote log (lookup_request api_url projectId) = HttpReply r ->
  (status r < 200 \/ 300 <= status r)%Z ->
  exists e,
    getFileContents api_url projectId filePath ref log
    = (Thrown e, (log ++ [lookup_request api_url projectId])%list)
    /\ err_class e = PlainError
    /\ is_rate_limit_error e
       = (status r =? 403)%Z
         && includes (errorBody_of r) "User API Key Rate limit exceeded".
Proof.
  intros Ht Hr Hs.
  destruct (handleGitLabError_throws r (log ++ [lookup_request api_url projectId])%list Hs)
    as [e [He [Hc Hm]]].
  exists e. split; [|split; [exact Hc|]].
  - rewrite getFileContents_unfold. unfold bind at 1.
    assert (Hd : getDefaultBranchRef api_url projectId log
                 = (Thrown e, (log ++ [lookup_request api_url projectId])%list)).
    { unfold getDefaultBranchRef, try_catch, bind.
      change (mkRequest GET api_url (Project projectId) [] None)
        with (lookup_request api_url projectId).
      rewrite (axios_rejects _ log r Hr Hs). cbn. unfold bind. rewrite He. reflexivity. }
    destruct ref as [s|]; cbn in Ht; [rewrite Ht|]; rewrite Hd; reflexivity.
  - destruct ((status r =? 403)%Z
              && includes (errorBody_of r) "User API Key Rate limit exceeded");
      apply Hm.
Qed.

(** X3: a file whose content is not empty comes back with the content
    passed through the base64 decoder and the encoding set to [utf8],
    whatever encoding the response declared; revision markers and the other
    fields are kept.  A file without content, or with empty content, comes
    back as parsed. *)
Theorem getFileContents_decodes api_url projectId filePath ref log r file :
  truthy ref = true ->
  remote log (read_request api_url projectId filePath ref) = HttpReply r ->
  (200 <= status r < 300)%Z ->
  parse GitLabContentSchema (data r) = ZodOk (FileContent file) ->
  getFileContents api_url projectId filePath (Some ref) log
  = (Returned
       (FileContent
          (if truthy_opt (content file)
           then mkFileContent (option_map base64_to_utf8 (content file)) "utf8"
                  (commit_id file) (last_commit_id file) (file_rest file)
           else file)),
     (log ++ [read_request api_url projectId filePath ref])%list).
Proof.
  intros Ht Hr Hs Hp. unfold getFileContents, bind, try_catch, ret, zod_parse. rewrite Ht.
  rewrite (axios_resolves _ log r Hr Hs). cbn. rewrite Hp. cbv [ret].
  destruct (content file) as [c|]; [|reflexivity].
  cbn. destruct (truthy c); reflexivity.
Qed.

(** A 404 on the fetch becomes the plain error [File not found: ]
    followed by the path; it is not left as an axios error and does not go
    through [handleGitLabError]. *)
Theorem getFileContents_404 api_url projectId filePath ref log r :
  truthy ref = true ->
  remote log (read_request api_url projectId filePath ref) = HttpReply r ->
  status r = 404%Z ->
  getFileContents api_url projectId filePath (Some ref) log
  = (Thrown (mkError PlainError ("File not found: " ++ filePath)),
     (log ++ [read_request api_url projectId filePath ref])%list).
Proof. intros Ht Hr Hs. now apply getFileContents_not_found with (r := r). Qed.


(** X4: when the fetch is answered 404, [createOrUpdateFile] makes two
    calls: the read, then a POST whose body carries no revision marker but
    the caller's. *)
Theorem createOrUpdateFile_absent_calls api_url projectId filePath content
  commitMessage branch previousPath last_commit_id commit_id log r :
  truthy branch = true ->
  remote log (read_request api_url projectId filePath branch) = HttpReply r ->
  status r = 404%Z ->
  snd (createOrUpdateFile api_url projectId filePath content commitMessage branch
         previousPath last_commit_id commit_id log)
  = (log ++ [read_request api_url projectId filePath branch;
             write_request POST api_url projectId filePath
               (mkBody branch content commitMessage "text"
                  (if truthy_opt previousPath then previousPath else None)
                  (if truthy_opt commit_id then commit_id else None)
                  (if truthy_opt last_commit_id then last_commit_id else None))])%list.
Proof.
  intros Ht Hr Hs.
  rewrite (createOrUpdateFile_creates _ _ _ _ _ _ _ _ _ _ r Ht Hr Hs).
  rewrite send_file_logs, <- app_assoc. reflexivity.
Qed.

(** X5: when the fetch returns a file, [createOrUpdateFile] makes two
    calls: the read, then a PUT.  Under each revision key the body has the
    caller's value when he gave one, else the value read, else nothing. *)
Theorem createOrUpdateFile_present_calls api_url projectId filePath content
  commitMessage branch previousPath last_commit_id commit_id log r file :
  truthy branch = true ->
  remote log (read_request api_url projectId filePath branch) = HttpReply r ->
  (200 <= status r < 300)%Z ->
  parse GitLabContentSchema (data r) = ZodOk (FileContent file) ->
  snd (createOrUpdateFile api_url projectId filePath content commitMessage branch
         previousPath last_commit_id commit_id log)
  = (log ++ [read_request api_url projectId filePath branch;
             write_request PUT api_url projectId filePath
               (mkBody branch content commitMessage "text"
                  (if truthy_opt previousPath then previousPath else None)
                  (if truthy_opt commit_id then commit_id
                   else if truthy_opt (GitLab.commit_id file)
                        then GitLab.commit_id file else None)
                  (if truthy_opt last_commit_id then last_commit_id
                   else if truthy_opt (GitLab.last_commit_id file)
                        then GitLab.last_commit_id file else None))])%list.
Proof.
  intros Ht Hr Hs Hp.
  rewrite (createOrUpdateFile_updates _ _ _ _ _ _ _ _ _ _ r file Ht Hr Hs Hp).
  rewrite send_file_logs, <- app_assoc. unfold revision_marker, with_markers, initial_body.
  cbn. destruct (truthy_opt commit_id), (truthy_opt last_commit_id),
    (truthy_opt (GitLab.commit_id file)), (truthy_opt (GitLab.last_commit_id file));
    reflexivity.
Qed.


End FileReads.

Section FileReadsExamples.
Import Js GitLab GitLabMore Scenario MoreScenario.

(** X1 on a project whose default branch is [trunk]. *)
Lemma getFileContents_without_ref_witness :
  getFileContents (H := stub_env remote_with_trunk) api "42" "README.md" None []
  = fetch_file (H := stub_env remote_with_trunk) api "42" "README.md" "trunk"
      [lookup_request api "42"]
  /\ snd (getFileContents (H := stub_env remote_with_trunk) api "42" "README.md" None [])
     = [lookup_request api "42"; read_request api "42" "README.md" "trunk"].
Proof.
  refine (getFileContents_without_ref (E := stub_env remote_with_trunk)
            api "42" "README.md" None []
            (mkResponse 200 "OK" (JObject [("default_branch", JString "trunk")]))
            (mkRepository (Some "trunk") (JObject [("default_branch", JString "trunk")]))
            eq_refl eq_refl _ eq_refl).
  simpl. lia.
Defined.

(** X2 on a remote that refuses the lookup for rate limiting. *)
Lemma getFileContents_lookup_refused_witness :
  exists e,
    getFileContents (H := stub_env remote_rate_limited) api "42" "README.md" (Some "") []
    = (Thrown e, [lookup_request api "42"])
    /\ err_class e = PlainError
    /\ is_rate_limit_error e = true.
Proof.
  refine (getFileContents_lookup_refused (E := stub_env remote_rate_limited)
            api "42" "README.md" (Some "") [] rate_limited eq_refl eq_refl _).
  right. simpl. lia.
Defined.

(** X3 on a file with content. *)
Lemma getFileContents_decodes_witness :
  getFileContents (H := stub_env remote_present) api "42" "README.md" (Some "main") []
  = (Returned
       (FileContent
          (mkFileContent (Some "aGVsbG8=") "utf8" (Some "c1") (Some "c0")
             (JObject [("content", JString "aGVsbG8="); ("encoding", JString "base64");
                       ("commit_id", JString "c1"); ("last_commit_id", JString "c0")]))),
     [read_request api "42" "README.md" "main"]).
Proof.
  refine (getFileContents_decodes (E := stub_env remote_present)
            api "42" "README.md" "main" []
            (mkResponse 200 "OK"
               (JObject [("content", JString "aGVsbG8="); ("encoding", JString "base64");
                         ("commit_id", JString "c1"); ("last_commit_id", JString "c0")]))
            (mkFileContent (Some "aGVsbG8=") "base64" (Some "c1") (Some "c0")
               (JObject [("content", JString "aGVsbG8="); ("encoding", JString "base64");
                         ("commit_id", JString "c1"); ("last_commit_id", JString "c0")]))
            eq_refl eq_refl _ eq_refl).
  simpl. lia.
Defined.

(** [getFileContents_404] on a remote without the file. *)
Lemma getFileContents_404_witness :
  getFileContents (H := stub_env remote_absent) api "42" "README.md" (Some "main") []
  = (Thrown (mkError PlainError "File not found: README.md"),
     [read_request api "42" "README.md" "main"]).
Proof.
  exact (getFileContents_404 (E := stub_env remote_absent) api "42" "README.md" "main" []
           (mkResponse 404 "Not Found" (JObject [("message", JString "404 File Not Found")]))
           eq_refl eq_refl eq_refl).
Defined.

(** X4 on a remote without the file, the caller giving a [commit_id]. *)
Lemma createOrUpdateFile_absent_calls_witness :
  snd (createOrUpdateFile (H := stub_env remote_absent) api "42" "README.md" "hello"
         "update" "main" None None (Some "mine") [])
  = [read_request api "42" "README.md" "main";
     write_request POST api "42" "README.md"
       (mkBody "main" "hello" "update" "text" None (Some "mine") None)].
Proof.
  exact (createOrUpdateFile_absent_calls (E := stub_env remote_absent)
           api "42" "README.md" "hello" "update" "main" None None (Some "mine") []
           (mkResponse 404 "Not Found" (JObject [("message", JString "404 File Not Found")]))
           eq_refl eq_refl eq_refl).
Defined.

(** X5 on a remote with the file, the caller giving a [last_commit_id]. *)
Lemma createOrUpdateFile_present_calls_witness :
  snd (createOrUpdateFile (H := stub_env remote_present) api "42" "README.md" "hello"
         "update" "main" None (Some "mine") None [])
  = [read_request api "42" "README.md" "main";
     write_request PUT api "42" "README.md"
       (mkBody "main" "hello" "update" "text" None (Some "c1") (Some "mine"))].
Proof.
  refine (createOrUpdateFile_present_calls (E := stub_env remote_present)
            api "42" "README.md" "hello" "update" "main" None (Some "mine") None []
            (mkResponse 200 "OK"
               (JObject [("content", JString "aGVsbG8="); ("encoding", JString "base64");
                         ("commit_id", JString "c1"); ("last_commit_id", JString "c0")]))
            (mkFileContent (Some "aGVsbG8=") "base64" (Some "c1") (Some "c0")
               (JObject [("content", JString "aGVsbG8="); ("encoding", JString "base64");
                         ("commit_id", JString "c1"); ("last_commit_id", JString "c0")]))
            eq_refl eq_refl _ eq_refl).
  simpl. lia.
Defined.

End FileReadsExamples.

(** ** The tables of the server and its dispatcher *)

Section Tables.
Import Js GitLab GitLabMore.

Lemma distinct_NoDup (l : list string) : distinct l = true -> NoDup l.
Proof.
  induction l as [|x l IH]; simpl; intros H; [constructor|].
  apply andb_true_iff in H. destruct H as [Hx Hl]. constructor; [|now apply IH].
  intros Hin. unfold array_includes in Hx.
  assert (Hex : existsb (String.eqb x) l = true).
  { apply existsb_exists. exists x. split; [exact Hin | apply String.eqb_refl]. }
  rewrite Hex in Hx. discriminate.
Qed.

Lemma array_includes_In_false (arr : list string) (x : string) :
  array_includes arr x = false -> In x arr -> False.
Proof.
  unfold array_includes. intros H Hin.
  assert (Hex : existsb (String.eqb x) arr = true).
  { apply existsb_exists. exists x. split; [exact Hin | apply String.eqb_refl]. }
  rewrite Hex in H. discriminate.
Qed.

Lemma case_of_name_label (n : string) (t : ToolCase) :
  case_of_name n = Some t -> n = case_name t.
Proof.
  unfold case_of_name.
  repeat match goal with
         | |- context [String.eqb n ?l] =>
             destruct (String.eqb_spec n l);
             [intros H; injection H as <-; assumption|]
         end.
  discriminate.
Qed.

Lemma case_name_found (t : ToolCase) : case_of_name (case_name t) = Some t.
Proof. destruct t; reflexivity. Qed.

Lemma case_name_advertised (t : ToolCase) : In (case_name t) (map name allTools).
Proof.
  apply array_includes_In. destruct t; reflexivity.
Qed.

(** The names with a [case] are the names of [allTools]. *)
Lemma advertised_iff_case (n : string) :
  In n (map name allTools) <-> exists t, case_of_name n = Some t.
Proof.
  split.
  - intros H. apply in_map_iff in H. destruct H as [tool [<- Hin]].
    exact (proj1 (Forall_forall _ _) allTools_have_cases tool Hin).
  - intros [t Ht]. rewrite (case_of_name_label n t Ht). apply case_name_advertised.
Qed.

(** X7: the tables agree.  No name occurs twice in [allTools]; every name
    of [readOnlyTools] is the name of a tool of [allTools]; and a name has a
    [case] in the dispatcher exactly when a tool of [allTools] bears it. *)
Theorem tool_tables_agree :
  NoDup (map name allTools)
  /\ incl readOnlyTools (map name allTools)
  /\ forall n, In n (map name allTools) <-> exists t, case_of_name n = Some t.
Proof.
  split; [apply distinct_NoDup; reflexivity|]. split; [|exact advertised_iff_case].
  intros n Hin. apply array_includes_In.
  unfold readOnlyTools in Hin. cbn [In] in Hin.
  repeat (destruct Hin as [<-|Hin]; [reflexivity|]). destruct Hin.
Qed.

(** X8: the schema a tool is advertised with is the schema its [case]
    parses the arguments with, for every tool but
    [get_merge_request_details]: that one is advertised with
    [GitLabMergeRequestSchema] and parsed with [GetMergeRequestSchema]. *)
Theorem advertised_schema_is_the_parsed_one :
  Forall (fun tool =>
            match case_of_name (name tool) with
            | Some t =>
                if String.eqb (name tool) "get_merge_request_details"
                then inputSchema tool = GitLabMergeRequestSchema
                     /\ case_schema t = GetMergeRequestSchema
                else inputSchema tool = case_schema t
            | None => False
            end)
    allTools.
Proof.
  unfold allTools.
  repeat (apply Forall_cons; [cbn; try split; reflexivity|]). apply Forall_nil.
Qed.

End Tables.

Section DispatchMore.
Import Js GitLab GitLabMore.
Context `{E : Env}.

(** X9: a call that names no tool of [allTools] is refused with
    [Unknown tool: ] and the name, without any remote call. *)
Theorem CallTool_unadvertised (cfg : Config) (n : string) arguments log :
  ~ In n (map name allTools) ->
  CallTool cfg (mkCall n (Some arguments)) log
  = (Thrown (mkError PlainError ("Unknown tool: " ++ n)), log).
Proof.
  intros Hn. apply CallTool_unknown.
  destruct (case_of_name n) as [t|] eqn:Ht; [|reflexivity].
  exfalso. apply Hn. apply advertised_iff_case. now exists t.
Qed.

(** X10: no ZodError leaves the dispatcher, whichever case ran and
    wherever the ZodError arose. *)
Theorem CallTool_throws_no_ZodError (cfg : Config) (request : CallToolRequest) log :
  match fst (CallTool cfg request log) with
  | Returned _ => True
  | Thrown e => match err_class e with ZodError _ => False | _ => True end
  end.
Proof.
  unfold CallTool, try_catch.
  match goal with |- context [let (o, log') := ?body log in _] => destruct (body log) as [[v|e] log'] end;
    [exact I|].
  unfold catch_clause. destruct (err_class e) eqn:Hc; cbn; try rewrite Hc; exact I.
Qed.

(** X11: the answer of the remote is parsed inside the same [try]: when a
    file was created and the answer to the POST does not fit
    [GitLabCreateUpdateFileResponseSchema], the call ends in
    [Invalid arguments: ...], after the file has been written. *)
Theorem CallTool_blames_arguments_for_the_answer (cfg : Config) arguments args log
  r r' issues :
  parse CreateOrUpdateFileSchema (JObject arguments) = ZodOk args ->
  truthy (cuf_branch args) = true ->
  remote log (read_request (GITLAB_API_URL cfg) (cuf_project_id args) (cuf_file_path args)
                (cuf_branch args)) = HttpReply r ->
  status r = 404%Z ->
  remote (log ++ [read_request (GITLAB_API_URL cfg) (cuf_project_id args)
                    (cuf_file_path args) (cuf_branch args)])%list
    (write_request POST (GITLAB_API_URL cfg) (cuf_project_id args) (cuf_file_path args)
       (mkBody (cuf_branch args) (cuf_content args) (cuf_commit_message args) "text"
          (if truthy_opt (cuf_previous_path args) then cuf_previous_path args else None)
          (if truthy_opt (cuf_commit_id args) then cuf_commit_id args else None)
          (if truthy_opt (cuf_last_commit_id args) then cuf_last_commit_id args else None)))
  = HttpReply r' ->
  (200 <= status r' < 300)%Z ->
  parse GitLabCreateUpdateFileResponseSchema (data r') = ZodFail issues ->
  CallTool cfg (mkCall "create_or_update_file" (Some arguments)) log
  = (Thrown (mkError PlainError
               ("Invalid arguments: " ++ join ", " (map format_issue issues))),
     (log ++ [read_request (GITLAB_API_URL cfg) (cuf_project_id args) (cuf_file_path args)
                (cuf_branch args);
              write_request POST (GITLAB_API_URL cfg) (cuf_project_id args)
                (cuf_file_path args)
                (mkBody (cuf_branch args) (cuf_content args) (cuf_commit_message args) "text"
                   (if truthy_opt (cuf_previous_path args) then cuf_previous_path args
                    else None)
                   (if truthy_opt (cuf_commit_id args) then cuf_commit_id args else None)
                   (if truthy_opt (cuf_last_commit_id args) then cuf_last_commit_id args
                    else None))])%list).
Proof.
  intros Hp Ht Hr Hs Hr' Hs' Hp'.
  rewrite (CallTool_case cfg (mkCall "create_or_update_file" (Some arguments))
             create_or_update_file arguments log eq_refl eq_refl).
  cbn [case_schema]. rewrite Hp. cbn [run_case].
  unfold try_catch, bind at 1.
  rewrite (createOrUpdateFile_creates _ _ _ _ _ _ _ _ _ log r Ht Hr Hs).
  unfold send_file, try_catch, bind, with_markers, initial_body. cbn [body_branch
    body_content body_commit_message body_encoding body_previous_path].
  rewrite (axios_resolves _ _ r' Hr' Hs'). unfold zod_parse. rewrite Hp'. cbn.
  rewrite <- app_assoc. reflexivity.
Qed.

(** X12: [getProject] makes one call, with a search parameter for each
    option that is set, and rethrows a status that is not 2xx as the error
    of [handleGitLabError]: the rate-limit error on a 403 with the
    signature, the generic error otherwise. *)
Theorem getProject_refused api_url projectId options log r :
  remote log (mkRequest GET api_url (Project projectId) (project_search options) None)
    = HttpReply r ->
  (status r < 200 \/ 300 <= status r)%Z ->
  exists e,
    getProject api_url projectId options log
    = (Thrown e,
       (log ++ [mkRequest GET api_url (Project projectId) (project_search options) None])%list)
    /\ err_class e = PlainError
    /\ is_rate_limit_error e
       = (status r =? 403)%Z
         && includes (errorBody_of r) "User API Key Rate limit exceeded".
Proof.
  intros Hr Hs.
  destruct (handleGitLabError_throws r
              (log ++ [mkRequest GET api_url (Project projectId) (project_search options)
                         None])%list Hs) as [e [He [Hc Hm]]].
  exists e. split; [|split; [exact Hc|]].
  - unfold getProject, try_catch, bind. rewrite (axios_rejects _ log r Hr Hs). cbn.
    unfold bind. rewrite He. reflexivity.
  - destruct ((status r =? 403)%Z
              && includes (errorBody_of r) "User API Key Rate limit exceeded");
      apply Hm.
Qed.


End DispatchMore.

Section DispatchMoreExamples.
Import Js GitLab GitLabMore Scenario MoreScenario.

(** X9 at [delete_repository], which no tool of [allTools] is called. *)
Lemma CallTool_unadvertised_witness :
  CallTool (H := stub_env remote_absent) (mkConfig api false)
    (mkCall "delete_repository" (Some [("project_id", JString "42")])) []
  = (Thrown (mkError PlainError "Unknown tool: delete_repository"), []).
Proof.
  apply (CallTool_unadvertised (E := stub_env remote_absent) (mkConfig api false)
           "delete_repository" [("project_id", JString "42")] []).
  intros Hin. apply array_includes_In_false in Hin; [exact Hin | reflexivity].
Defined.

(** X11 on a remote that answers the POST with [201] and an empty body. *)
Lemma CallTool_blames_arguments_for_the_answer_witness :
  CallTool (H := strict_env remote_empty_answer) (mkConfig api false)
    (mkCall "create_or_update_file" (Some write_arguments)) []
  = (Thrown (mkError PlainError "Invalid arguments: : Expected object, received null"),
     [read_request api "42" "README.md" "main";
      write_request POST api "42" "README.md"
        (mkBody "main" "hello" "update" "text" None None None)]).
Proof.
  refine (CallTool_blames_arguments_for_the_answer (E := strict_env remote_empty_answer)
            (mkConfig api false) write_arguments
            (mkCreateOrUpdateFileArgs "42" "README.md" "hello" "update" "main"
               None None None)
            []
            (mkResponse 404 "Not Found" (JString ""))
            (mkResponse 201 "Created" JNull)
            [mkIssue [] "Expected object, received null"]
            eq_refl eq_refl eq_refl eq_refl eq_refl _ eq_refl).
  simpl. lia.
Defined.

(** X12 on a rate-limited remote, with statistics asked for. *)
Lemma getProject_refused_witness :
  exists e,
    getProject (H := stub_env remote_rate_limited) api "42"
      (mkProjectOptions None (Some true) (Some false)) []
    = (Thrown e, [mkRequest GET api (Project "42") [("statistics", "true")] None])
    /\ err_class e = PlainError
    /\ is_rate_limit_error e = true.
Proof.
  refine (getProject_refused (E := stub_env remote_rate_limited) api "42"
            (mkProjectOptions None (Some true) (Some false)) [] rate_limited eq_refl _).
  right. simpl. lia.
Defined.


End DispatchMoreExamples.

(** ** The API URL *)

Section NormalizeUrlMore.
Import GitLab.

(** X14: whatever the input, the URL that [normalizeGitLabApiUrl] returns
    is not empty and ends with [/api/v4], or with [/api/v4/]. *)
Theorem normalizeGitLabApiUrl_output (url : option string) :
  normalizeGitLabApiUrl url <> ""
  /\ (Js.endsWith (normalizeGitLabApiUrl url) "/api/v4" = true
      \/ Js.endsWith (normalizeGitLabApiUrl url) "/api/v4/" = true).
Proof.
  assert (Hcases : exists x, normalizeGitLabApiUrl url = x ++ "/api/v4"
                             \/ normalizeGitLabApiUrl url = x ++ "/api/v4/").
  { destruct url as [u|]; [|exists "https://gitlab.com"; left; reflexivity].
    destruct (Js.endsWith u "/api/v4//") eqn:Hd.
    - destruct (normalize_double_slash u Hd) as [Hn _].
      apply endsWith_spec in Hd. destruct Hd as [p ->]. exists p. right.
      rewrite Hn.
      replace (p ++ "/api/v4//") with ((p ++ "/api/v4/") ++ "/")
        by (rewrite append_assoc; reflexivity).
      apply slice_append_char.
    - destruct (normalize_shape (Some u)) as [x Hx].
      + intros u' Hu. injection Hu as <-. exact Hd.
      + exists x. left. exact Hx. }
  destruct Hcases as [x [-> | ->]]; (split; [apply append_nonempty; discriminate|]).
  - left. apply endsWith_append.
  - right. apply endsWith_append.
Qed.

(** X15: one trailing slash makes no difference: a URL that is not empty
    and does not end with a slash is normalised to the same URL with a
    slash added to it as without. *)
Theorem normalizeGitLabApiUrl_trailing_slash (u : string) :
  u <> "" -> Js.endsWith u "/" = false ->
  normalizeGitLabApiUrl (Some (u ++ "/")) = normalizeGitLabApiUrl (Some u).
Proof.
  intros Hne Hs. unfold normalizeGitLabApiUrl, Js.truthy_opt, Js.truthy.
  assert (H1 : u ++ "/" <> "") by (apply append_nonempty; discriminate).
  apply String.eqb_neq in H1. apply String.eqb_neq in Hne. rewrite H1, Hne.
  simpl negb. cbv iota.
  rewrite endsWith_append, slice_append_char, Hs. reflexivity.
Qed.

(** X15 at [https://gitlab.example.com]. *)
Lemma normalizeGitLabApiUrl_trailing_slash_witness :
  normalizeGitLabApiUrl (Some ("https://gitlab.example.com" ++ "/"))
  = normalizeGitLabApiUrl (Some "https://gitlab.example.com").
Proof.
  apply (normalizeGitLabApiUrl_trailing_slash "https://gitlab.example.com").
  - discriminate.
  - reflexivity.
Defined.

End NormalizeUrlMore.

(** ** The script tool, continued *)

Section ScriptHandlerMore.
Import Js Script.
Context `{S : Shell} `{R : Render}.

Lemma code_or_minus_one_nonzero (c : option Code) :
  code_or_minus_one c <> ExitStatus 0.
Proof.
  destruct c as [[n|s]|]; simpl.
  - destruct (n =? 0)%Z eqn:En; [discriminate|].
    apply Z.eqb_neq in En. congruence.
  - destruct (truthy s); discriminate.
  - discriminate.
Qed.

Lemma blank_trim (s : JsString) : blank s -> trim s = [].
Proof.
  intros Hb. unfold trim.
  assert (H : trimStart s = []).
  { induction s as [|c s IH]; [reflexivity|]. inversion Hb as [|? ? Hc Hs]; subst.
    simpl. rewrite Hc. now apply IH. }
  rewrite H. reflexivity.
Qed.


(** X17: in every result of the handler, [exitCode] is 0 exactly when
    there is no [error]. *)
Theorem exit_code_zero_iff_no_error (script : JsString) (timeoutSeconds : option Q)
  (log : Log) :
  match fst (handler script timeoutSeconds log) with
  | Returned result => error result = None <-> exitCode result = Some (ExitStatus 0)
  | Thrown _ => False
  end.
Proof.
  unfold handler, try_catch, bind, execAsync.
  destruct (script_is_empty script); [cbn; split; discriminate|].
  destruct (timeout_out_of_range _); [cbn; split; discriminate|].
  destruct (existsb _ _); [cbn; split; discriminate|].
  destruct (exec log _) as [out err|e]; cbn; [split; reflexivity|].
  destruct (match signal e with Some s => String.eqb s "SIGTERM" | None => false end);
    cbn; (split; [discriminate|]).
  - discriminate.
  - intros H. injection H as H. exfalso. exact (code_or_minus_one_nonzero _ H).
Qed.




(** X20: a script of white space only, the empty script included, is
    refused with [Script cannot be empty] before anything else is looked at,
    the time-out included. *)
Theorem handler_blank_script (script : JsString) (timeoutSeconds : option Q) (log : Log) :
  blank script ->
  handler script timeoutSeconds log = (Returned empty_script_error, log).
Proof.
  intros Hb. unfold handler, try_catch, script_is_empty.
  rewrite (blank_trim script Hb). rewrite orb_true_r. reflexivity.
Qed.

End ScriptHandlerMore.

(** ** The deny-list and the case of letters *)

Section CaseFolding.
Import Js Script ScriptMore.





Variable g : CodeUnit -> CodeUnit.
Hypothesis g_keeps_letter : forall c, canonicalize (g c) = canonicalize c.








End CaseFolding.

Section ScriptMoreExamples.
Import Js Script Scenario MoreScenario.



(** X20 at a script of a blank, a tab and a line feed, with a time-out out
    of range. *)
Lemma handler_blank_script_witness :
  handler (H := shell_ok) (H0 := render_seconds) [32; 9; 10]%N (Some 1000%Q) []
  = (Returned empty_script_error, []).
Proof.
  apply (handler_blank_script (S := shell_ok) (R := render_seconds)
           [32; 9; 10]%N (Some 1000%Q) []).
  repeat constructor.
Defined.


End ScriptMoreExamples.

(** ** Tool groups *)

Section Groups.
Import Js Script ToolGroups.
Local Open Scope list_scope.

Lemma trimStart_after_blank (p x : JsString) :
  blank p -> trimStart (p ++ x) = trimStart x.
Proof.
  induction p as [|c p IH]; intros Hb; [reflexivity|].
  inversion Hb as [|? ? Hc Hp]; subst. simpl. rewrite Hc. now apply IH.
Qed.

Lemma trimStart_solid (x y : JsString) :
  x <> [] -> Forall (fun c => is_whitespace c = false) x -> trimStart (x ++ y) = (x ++ y)%list.
Proof.
  intros Hne Hx. destruct x as [|c x]; [congruence|].
  inversion Hx as [|? ? Hc _]; subst. simpl. rewrite Hc. reflexivity.
Qed.

(** [trim] removes the white space around a word. *)
Lemma trim_padded (p1 word p2 : JsString) :
  blank p1 -> blank p2 -> word <> [] ->
  Forall (fun c => is_whitespace c = false) word ->
  trim (p1 ++ word ++ p2) = word.
Proof.
  intros H1 H2 Hne Hw. unfold trim.
  rewrite (trimStart_after_blank p1 _ H1), (trimStart_solid word p2 Hne Hw).
  rewrite rev_app_distr.
  assert (Hrb : blank (rev p2)).
  { unfold blank in *. rewrite Forall_forall in *. intros c Hc. apply H2.
    now apply in_rev. }
  rewrite (trimStart_after_blank (rev p2) _ Hrb).
  assert (Hrw : Forall (fun c => is_whitespace c = false) (rev word)).
  { rewrite Forall_forall in *. intros c Hc. apply Hw. now apply in_rev. }
  assert (Hrne : rev word <> []).
  { intros E. apply Hne. rewrite <- (rev_involutive word), E. reflexivity. }
  pose proof (trimStart_solid (rev word) [] Hrne Hrw) as Ht.
  rewrite !app_nil_r in Ht. rewrite Ht. apply rev_involutive.
Qed.

Lemma split_comma_not_nil (s : JsString) : split_comma s <> [].
Proof.
  destruct s as [|c s]; simpl; [discriminate|].
  destruct (c =? comma)%N; [discriminate|].
  destruct (split_comma s); discriminate.
Qed.

Lemma split_comma_whole (s : JsString) :
  Forall (fun c => (c =? comma)%N = false) s -> split_comma s = [s].
Proof.
  induction s as [|c s IH]; intros H; [reflexivity|].
  inversion H as [|? ? Hc Hs]; subst. simpl. rewrite Hc, (IH Hs). reflexivity.
Qed.

Lemma split_comma_separators (s : JsString) :
  Forall (fun c => is_separator c = true) s -> Forall blank (split_comma s).
Proof.
  induction s as [|c s IH]; intros H; [repeat constructor|].
  inversion H as [|? ? Hc Hs]; subst. specialize (IH Hs). simpl.
  destruct (c =? comma)%N eqn:Ec; [constructor; [constructor | exact IH]|].
  unfold is_separator in Hc. rewrite Ec in Hc. simpl in Hc.
  destruct (split_comma s) as [|first others]; [repeat constructor; exact Hc|].
  inversion IH; subst. constructor; [constructor; assumption | assumption].
Qed.

Lemma js_eqb_refl (a : JsString) : js_eqb a a = true.
Proof. induction a as [|x a IH]; simpl; [reflexivity|]. now rewrite N.eqb_refl. Qed.

Lemma js_eqb_eq (a b : JsString) : js_eqb a b = true <-> a = b.
Proof.
  split; [|intros ->; apply js_eqb_refl].
  revert b. induction a as [|x a IH]; destruct b as [|y b]; simpl; try discriminate;
    [reflexivity|].
  intros H. apply andb_true_iff in H. destruct H as [Hx Ha].
  apply N.eqb_eq in Hx. subst. f_equal. now apply IH.
Qed.

(** X22: a selector that is empty or all white space enables every
    group. *)
Theorem blank_selector_enables_all (config : Config) (group : JsString) :
  blank (enableTools config) -> isToolGroupEnabled config group = true.
Proof.
  intros Hb. unfold isToolGroupEnabled. rewrite (blank_trim _ Hb).
  simpl. rewrite orb_true_r. reflexivity.
Qed.

(** X23: a selector that is one name, with white space before or after
    it or not, enables the group of exactly that name and no other: the
    comparison is exact, case included. *)
Theorem single_selector_enables_one (config : Config) (p1 word p2 group : JsString) :
  enableTools config = (p1 ++ word ++ p2)%list ->
  blank p1 -> blank p2 -> word <> [] ->
  Forall (fun c => is_separator c = false) word ->
  isToolGroupEnabled config group = true <-> group = word.
Proof.
  intros He H1 H2 Hne Hw.
  assert (Hws : Forall (fun c => is_whitespace c = false) word).
  { eapply Forall_impl; [|exact Hw]. intros c Hc. unfold is_separator in Hc.
    apply orb_false_iff in Hc. tauto. }
  assert (Hnc : Forall (fun c => (c =? comma)%N = false) (p1 ++ word ++ p2)).
  { assert (Hbl : forall p, blank p -> Forall (fun c => (c =? comma)%N = false) p).
    { intros p Hp. eapply Forall_impl; [|exact Hp]. intros c Hc.
      destruct (c =? comma)%N eqn:Ec; [|reflexivity].
      apply N.eqb_eq in Ec. subst. discriminate. }
    apply Forall_app. split; [now apply Hbl|]. apply Forall_app. split; [|now apply Hbl].
    eapply Forall_impl; [|exact Hw]. intros c Hc. unfold is_separator in Hc.
    apply orb_false_iff in Hc. tauto. }
  pose proof (trim_padded p1 word p2 H1 H2 Hne Hws) as Ht.
  unfold isToolGroupEnabled. rewrite He, Ht, (split_comma_whole _ Hnc).
  assert (Hnil : is_empty (p1 ++ word ++ p2) = false).
  { destruct (p1 ++ word ++ p2)%list eqn:E; [|reflexivity].
    apply app_eq_nil in E. destruct E as [_ E]. apply app_eq_nil in E. tauto. }
  assert (Hw0 : is_empty word = false) by (destruct word; [congruence | reflexivity]).
  rewrite Hnil, Hw0. cbn [orb map existsb]. rewrite Ht, orb_false_r. apply js_eqb_eq.
Qed.

(** X24: a selector made of commas and white space only, with a comma in
    it, enables no group at all. *)
Theorem separators_enable_nothing (config : Config) (group : JsString) :
  Forall (fun c => is_separator c = true) (enableTools config) ->
  ~ blank (enableTools config) ->
  group <> [] ->
  isToolGroupEnabled config group = false.
Proof.
  intros Hs Hnb Hg. unfold isToolGroupEnabled.
  assert (H1 : is_empty (enableTools config) = false).
  { destruct (enableTools config); [exfalso; apply Hnb; constructor | reflexivity]. }
  assert (H2 : is_empty (trim (enableTools config)) = false).
  { destruct (trim (enableTools config)) eqn:E; [|reflexivity].
    exfalso. apply Hnb. now apply trim_nil. }
  rewrite H1, H2. simpl.
  pose proof (split_comma_separators _ Hs) as Hb.
  induction (split_comma (enableTools config)) as [|seg segs IH]; [reflexivity|].
  inversion Hb as [|? ? Hseg Hsegs]; subst. simpl.
  rewrite (blank_trim seg Hseg), (IH Hsegs).
  destruct group; [congruence | reflexivity].
Qed.

Lemma registerAll_app (server : Server) (names : list string) :
  registerAll server names = (server ++ names)%list.
Proof.
  revert server. induction names as [|n names IH]; intros server; simpl.
  - now rewrite app_nil_r.
  - unfold registerAll in *. simpl. rewrite IH. unfold registerTool.
    rewrite <- app_assoc. reflexivity.
Qed.

(** What [registerTools] adds to the server, group by group. *)
Lemma registerTools_groups (server : Server) (config : Config) :
  registerTools server config
  = (server
     ++ (if isToolGroupEnabled config (code_units "confluence")
            && (is_set (atlassianHost config) && is_set (atlassianEmail config)
                && is_set (atlassianToken config))
         then confluence_tools else [])
     ++ (if isToolGroupEnabled config (code_units "github") && is_set (githubToken config)
         then github_tools else [])
     ++ (if isToolGroupEnabled config (code_units "gitlab")
            && (is_set (gitlabHost config) && is_set (gitlabToken config))
         then gitlab_tools else [])
     ++ (if isToolGroupEnabled config (code_units "jira")
            && (is_set (atlassianHost config) && is_set (atlassianEmail config)
                && is_set (atlassianToken config))
         then jira_tools else [])
     ++ (if isToolGroupEnabled config (code_units "script") then script_tools else []))%list.
Proof.
  unfold registerTools, registerConfluenceTools, registerGitHubTools, registerGitLabTools,
    registerJiraTools, registerScriptTools.
  destruct (isToolGroupEnabled config (code_units "confluence")),
    (isToolGroupEnabled config (code_units "github")),
    (isToolGroupEnabled config (code_units "gitlab")),
    (isToolGroupEnabled config (code_units "jira")),
    (isToolGroupEnabled config (code_units "script")),
    (is_set (atlassianHost config)), (is_set (atlassianEmail config)),
    (is_set (atlassianToken config)), (is_set (githubToken config)),
    (is_set (gitlabHost config)), (is_set (gitlabToken config));
    cbn [negb orb andb]; rewrite ?registerAll_app, ?app_nil_r, <- ?app_assoc;
    reflexivity.
Qed.

(** X25: whatever the configuration, [registerTools] registers no name
    twice on a fresh server, and the groups come in the order Confluence,
    GitHub, GitLab, Jira, script: what is registered is the full list with
    whole groups left out. *)
Theorem registerTools_names_distinct (config : Config) :
  NoDup (registerTools [] config)
  /\ exists c gh gl j s : bool,
       registerTools [] config
       = ((if c then confluence_tools else [])
          ++ (if gh then github_tools else [])
          ++ (if gl then gitlab_tools else [])
          ++ (if j then jira_tools else [])
          ++ (if s then script_tools else []))%list.
Proof.
  rewrite registerTools_groups. cbn [app].
  set (c := isToolGroupEnabled config (code_units "confluence") && _).
  set (gh := isToolGroupEnabled config (code_units "github") && _).
  set (gl := isToolGroupEnabled config (code_units "gitlab") && _).
  set (j := isToolGroupEnabled config (code_units "jira") && _).
  set (s := isToolGroupEnabled config (code_units "script")).
  split; [|exists c, gh, gl, j, s; reflexivity].
  apply distinct_NoDup. destruct c, gh, gl, j, s; reflexivity.
Qed.

(** X26: the script tool needs no credentials.  On a configuration
    without any token, the only tool that [registerTools] can register
    is [execute_comand_line_script], and it does so whenever the script
    group is enabled, as it is with an empty selector. *)
Theorem registerTools_without_credentials (config : Config) :
  is_set (atlassianToken config) = false ->
  is_set (githubToken config) = false ->
  is_set (gitlabToken config) = false ->
  registerTools [] config
  = if isToolGroupEnabled config (code_units "script")
    then ["execute_comand_line_script"] else [].
Proof.
  intros Ha Hgh Hgl. rewrite registerTools_groups, Ha, Hgh, Hgl.
  rewrite !andb_false_r. reflexivity.
Qed.

End Groups.

Section GroupsExamples.
Import Js Script ToolGroups MoreScenario.

(** X22 on the configuration loaded from an environment with nothing
    set. *)
Lemma blank_selector_enables_all_witness :
  isToolGroupEnabled (loadConfig (environment None)) (code_units "github") = true.
Proof.
  apply (blank_selector_enables_all (loadConfig (environment None)) (code_units "github")).
  constructor.
Defined.

(** X23 on the selector [ github ], with a blank on either side. *)
Lemma single_selector_enables_one_witness :
  isToolGroupEnabled (loadConfig (environment (Some (code_units " github "))))
    (code_units "gitlab") = true
  <-> code_units "gitlab" = code_units "github".
Proof.
  apply (single_selector_enables_one
           (loadConfig (environment (Some (code_units " github "))))
           [32%N] (code_units "github") [32%N] (code_units "gitlab")).
  - reflexivity.
  - repeat constructor.
  - repeat constructor.
  - discriminate.
  - repeat constructor.
Defined.

(** X24 on the selector [, ,]. *)
Lemma separators_enable_nothing_witness :
  isToolGroupEnabled (loadConfig (environment (Some (code_units ", ,"))))
    (code_units "script") = false.
Proof.
  apply (separators_enable_nothing
           (loadConfig (environment (Some (code_units ", ,")))) (code_units "script")).
  - repeat constructor.
  - intros H. inversion H; discriminate.
  - discriminate.
Defined.

(** X26 on the configuration loaded from an environment with nothing
    set: the script tool, and it alone, is registered. *)
Lemma registerTools_without_credentials_witness :
  registerTools [] (loadConfig (environment None)) = ["execute_comand_line_script"].
Proof.
  exact (registerTools_without_credentials (loadConfig (environment None))
           eq_refl eq_refl eq_refl).
Defined.

End GroupsExamples.

(** ** The GitHub handlers, continued *)

Section GitHubMore.
Import Js.

(** The handler of [github_get_file_content] never throws and makes
    exactly one call; a refusal by the client comes back as
    [Failed to get file content: ] and the client's message. *)
Theorem getFileContent_handler_one_call `{O : GitHub.Octokit} owner repo path ref log :
  exists result,
    GitHub.getFileContent_handler owner repo path ref log
    = (Returned result, (log ++ [GitHub.repos_getContent owner repo path ref])%list)
    /\ match GitHub.getContent log owner repo path ref with
       | GitHub.Rejected message =>
           result = GitHub.FileError ("Failed to get file content: " ++ message)
       | GitHub.Resolved _ => True
       end.
Proof.
  unfold GitHub.getFileContent_handler, try_catch, bind, GitHub.await.
  destruct (GitHub.getContent log owner repo path ref) as [[entries|o]|m].
  - eexists. split; [reflexivity | exact I].
  - destruct (GitHub.obj_content o); eexists; (split; [reflexivity | exact I]).
  - eexists. split; reflexivity.
Qed.

(** X27: the handler of [github_pr_action] never throws.  Its first call
    is the review (approve) or the state change (close); the only call that
    can follow is the comment on a closed pull request, and it is made only
    for a comment that is not empty and after the state change succeeded. *)
Theorem PRAction_handler_calls `{O : GitHub.Octokit} owner repo prNumber action comment log :
  exists result rest,
    GitHub.PRAction_handler owner repo prNumber action comment log
    = (Returned result,
       (log
        ++ match action with
           | GitHub.approve =>
               GitHub.pulls_createReview owner repo prNumber "APPROVE" comment
           | GitHub.close => GitHub.pulls_update owner repo prNumber "closed"
           end :: rest)%list)
    /\ (rest = []
        \/ exists body pr,
             action = GitHub.close /\ comment = Some body /\ truthy body = true
             /\ GitHub.update log owner repo prNumber "closed" = GitHub.Resolved pr
             /\ rest = [GitHub.issues_createComment owner repo prNumber body]).
Proof.
  unfold GitHub.PRAction_handler, try_catch, bind, GitHub.await.
  destruct action.
  - destruct (GitHub.createReview log owner repo prNumber "APPROVE" comment);
      eexists; exists []; split; try reflexivity; now left.
  - destruct (GitHub.update log owner repo prNumber "closed") as [pr|m] eqn:Hu.
    + destruct comment as [body|].
      * destruct (truthy body) eqn:Ht.
        -- cbn. destruct (GitHub.createComment _ owner repo prNumber body);
             eexists; exists [GitHub.issues_createComment owner repo prNumber body];
             (split; [cbn; rewrite <- app_assoc; reflexivity|]);
             right; exists body, pr; repeat split; assumption.
        -- eexists; exists []; split; [reflexivity | now left].
      * eexists; exists []; split; [reflexivity | now left].
    + eexists; exists []; split; [reflexivity | now left].
Qed.

End GitHubMore.

(** ** Closing and reopening issues *)

Section Issues.
Import Js GitHubIssues.
Context `{I : Issues}.

(** X28: the handler of [github_issue_action] comments first.  When the
    comment is refused, the state of the issue is not touched: the log ends
    with the comment, and the answer is [Failed to perform action: ] and the
    message. *)
Theorem IssueAction_comment_refused owner repo issueNumber action body log message :
  truthy body = true ->
  createComment log owner repo issueNumber body = GitHub.Rejected message ->
  IssueAction_handler owner repo issueNumber action (Some body) log
  = (Returned (ActionError ("Failed to perform action: " ++ message)),
     (log ++ [issues_createComment owner repo issueNumber body])%list).
Proof.
  intros Ht Hc. unfold IssueAction_handler, try_catch, bind, await.
  rewrite Ht, Hc. reflexivity.
Qed.

(** Without a comment, or with an empty one, the only call is the state
    change: [closed] for close and [open] for reopen. *)
Lemma IssueAction_without_comment owner repo issueNumber action comment log :
  truthy_opt comment = false ->
  snd (IssueAction_handler owner repo issueNumber action comment log)
  = (log ++ [issues_update owner repo issueNumber
               (match action with close => "closed" | reopen => "open" end)])%list.
Proof.
  intros Ht. unfold IssueAction_handler, try_catch, bind, await.
  assert (Hs : state_of action = match action with close => "closed" | reopen => "open" end)
    by (destruct action; reflexivity).
  rewrite Hs.
  destruct comment as [body|]; cbn in Ht; [rewrite Ht|]; cbn;
    destruct (update log owner repo issueNumber _); reflexivity.
Qed.

(** The handler of [github_get_issue] reads the issue, then its
    comments; when the issue cannot be read, the comments are not asked
    for. *)
Theorem GetIssue_stops_at_the_issue owner repo issueNumber log message :
  get log owner repo issueNumber = GitHub.Rejected message ->
  GetIssue_handler owner repo issueNumber log
  = (Returned (GetIssueError ("Failed to get issue: " ++ message)),
     (log ++ [issues_get owner repo issueNumber])%list).
Proof.
  intros Hg. unfold GetIssue_handler, try_catch, bind, await. rewrite Hg. reflexivity.
Qed.

End Issues.

Section IssuesExamples.
Import Js GitHubIssues MoreScenario.

(** X28 on a client that refuses comments. *)
Lemma IssueAction_comment_refused_witness :
  IssueAction_handler (H := issues_comment_fails) "octo" "kit" 7 close (Some "done") []
  = (Returned (ActionError "Failed to perform action: Validation Failed"),
     [issues_createComment "octo" "kit" 7 "done"]).
Proof.
  exact (IssueAction_comment_refused (I := issues_comment_fails) "octo" "kit" 7 close
           "done" [] "Validation Failed" eq_refl eq_refl).
Defined.

End IssuesExamples.

(** ** Updating a Jira issue *)

Section JiraFields.
Import Js Jira.

Lemma lookup_replace_same k v fields : lookup k (replace k v fields) = Some v.
Proof.
  induction fields as [|[k' v'] rest IH]; simpl.
  - now rewrite String.eqb_refl.
  - destruct (String.eqb k k') eqn:E; simpl; [now rewrite String.eqb_refl|].
    rewrite E. exact IH.
Qed.

Lemma lookup_replace_other k k' v fields :
  k <> k' -> lookup k (replace k' v fields) = lookup k fields.
Proof.
  intros Hne. apply String.eqb_neq in Hne.
  induction fields as [|[k0 v0] rest IH]; simpl.
  - now rewrite Hne.
  - destruct (String.eqb k' k0) eqn:E; simpl.
    + apply String.eqb_eq in E. subst. now rewrite Hne.
    + destruct (String.eqb k k0); [reflexivity | exact IH].
Qed.

Lemma lookup_assign_other k k' v fields :
  k <> k' -> lookup k (assign k' v fields) = lookup k fields.
Proof.
  intros Hne. unfold assign. destruct (String.eqb k' "__proto__"); [reflexivity|].
  now apply lookup_replace_other.
Qed.

Lemma lookup_assign_same k v fields :
  k <> "__proto__" -> lookup k (assign k v fields) = Some v.
Proof.
  intros Hne. unfold assign. apply String.eqb_neq in Hne. rewrite Hne.
  apply lookup_replace_same.
Qed.

Lemma lookup_assign_all_other k custom :
  ~ In k (map fst custom) ->
  forall fields, lookup k (assign_all custom fields) = lookup k fields.
Proof.
  unfold assign_all. induction custom as [|[k' v'] rest IH]; intros Hk fields; simpl;
    [reflexivity|].
  simpl in Hk. rewrite IH by tauto. apply lookup_assign_other. intros E. apply Hk.
  now left.
Qed.

Lemma lookup_assign_all custom :
  NoDup (map fst custom) ->
  forall k v fields, In (k, v) custom -> k <> "__proto__" ->
  lookup k (assign_all custom fields) = Some v.
Proof.
  unfold assign_all. induction custom as [|[k' v'] rest IH]; intros Hnd k v fields Hin Hp;
    [destruct Hin|].
  simpl in Hnd. inversion Hnd as [|? ? Hnotin Hnd']; subst. simpl.
  destruct Hin as [Heq|Hin].
  - injection Heq as -> ->.
    pose proof (lookup_assign_all_other k rest Hnotin) as H. unfold assign_all in H.
    rewrite H. now apply lookup_assign_same.
  - now apply IH.
Qed.

(** X29: a custom field always reaches Jira as given.  For custom fields
    with distinct keys, each key other than [__proto__] is in the fields
    sent with its own value, also when it is the key of a named parameter
    ([summary], [assignee], ...), which it then replaces. *)
Theorem custom_fields_win summary description assignee priority labels custom k v :
  NoDup (map fst custom) ->
  In (k, v) custom ->
  k <> "__proto__" ->
  lookup k (update_fields summary description assignee priority labels (Some custom))
  = Some v.
Proof.
  intros Hnd Hin Hp. unfold update_fields. now apply lookup_assign_all.
Qed.

(** X30: the assignee.  Unless a custom field is called [assignee], an
    assignee left out sends no [assignee] at all, an empty one sends [null]
    (it clears the assignee), and a name is sent as [{ name }]. *)
Theorem assignee_sent summary description assignee priority labels custom :
  ~ In "assignee" (map fst custom) ->
  lookup "assignee"
    (update_fields summary description assignee priority labels (Some custom))
  = match assignee with
    | None => None
    | Some a => Some (if truthy a then named a else JNull)
    end.
Proof.
  intros Hc. unfold update_fields.
  rewrite (lookup_assign_all_other "assignee" custom Hc).
  assert (Hif : forall k value f fields,
             "assignee" <> k ->
             lookup "assignee" (assign_if k value f fields) = lookup "assignee" fields).
  { intros k value f fields Hk. unfold assign_if. destruct value as [s|]; [|reflexivity].
    destruct (truthy s); [|reflexivity]. now apply lookup_assign_other. }
  destruct labels as [l|];
    [rewrite lookup_assign_other by discriminate|];
    rewrite Hif by discriminate;
    (destruct assignee as [a|];
     [rewrite lookup_assign_same by discriminate; reflexivity|]);
    rewrite !Hif by discriminate; reflexivity.
Qed.

(** The handler never throws and makes exactly one call, with the fields
    of [update_fields]. *)
Lemma UpdateIssue_handler_one_call `{C : Client} issueKey summary description assignee
  priority labels custom log :
  exists result,
    UpdateIssue_handler issueKey summary description assignee priority labels custom log
    = (Returned result,
       (log ++ [mkUpdateCall issueKey
                  (update_fields summary description assignee priority labels custom)])%list).
Proof.
  unfold UpdateIssue_handler, try_catch, bind.
  destruct (updateIssue log issueKey _); eexists; reflexivity.
Qed.

End JiraFields.

Section JiraExamples.
Import Js Jira.

(** X29 on a custom field called [summary]. *)
Lemma custom_fields_win_witness :
  lookup "summary"
    (update_fields (Some "old title") None None None None
       (Some [("customfield_10010", JNumber 3); ("summary", JString "new title")]))
  = Some (JString "new title").
Proof.
  apply (custom_fields_win (Some "old title") None None None None
           [("customfield_10010", JNumber 3); ("summary", JString "new title")]
           "summary" (JString "new title")).
  - apply distinct_NoDup. reflexivity.
  - right. left. reflexivity.
  - discriminate.
Defined.

(** X30 on an empty assignee. *)
Lemma assignee_sent_witness :
  lookup "assignee"
    (update_fields None None (Some "") (Some "High") None
       (Some [("customfield_10010", JNumber 3)]))
  = Some JNull.
Proof.
  apply (assignee_sent None None (Some "") (Some "High") None
           [("customfield_10010", JNumber 3)]).
  intros [H|[]]. discriminate.
Defined.

End JiraExamples.
